(** * ai-rag-chunkenizer: the token-aware greedy chunker, embedded and verified

    Shallow embedding of [chunkenizer/core.py] and of the extension registry
    of [chunkenizer/extractors/__init__.py].

    Conventions.
    - A Python [str] is a [string]; its characters are the code points below
      256 ([ascii]).  [isspace] is Python's [str.isspace] on that range.
    - Python integers are unbounded: configuration values are [Z] (they may be
      zero or negative, the constructor does not look at them), lengths and
      token counts are [nat].
    - The tokenizer ([tiktoken]), [pathlib], the file system and the
      format libraries called by the extractors are collaborators of the
      program: they are fields of a [World] or of the [Chunkenizer] itself.
      An encoding is taken through its [encode] method as a function from
      texts to token lists, defined on every text (the Token Counter
      contract of the specification).
    - An exception is a value of [exn]; code that may raise returns [Result]. *)

From Stdlib Require Import List String Ascii ZArith Lia Bool Arith.
From Stdlib Require Import DecimalString.
Import ListNotations.
Open Scope string_scope.
Open Scope list_scope.

(** ** Python built-ins used by the source *)

Module Py.

(** [str.isspace] of one character (code points 0..255): TAB, LF, VT, FF,
    CR, the four separators FS, GS, RS, US, the space, NEL and NBSP. *)
Definition isspace (c : ascii) : bool :=
  let n := nat_of_ascii c in
  (((9 <=? n) && (n <=? 13)) || ((28 <=? n) && (n <=? 32))
   || (n =? 133) || (n =? 160))%nat.

(** Truth value of a [str]: false exactly for the empty string. *)
Definition truthy (s : string) : bool :=
  match s with
  | EmptyString => false
  | String _ _ => true
  end.

Fixpoint lstrip (s : string) : string :=
  match s with
  | EmptyString => EmptyString
  | String c s' => if isspace c then lstrip s' else s
  end.

Fixpoint rstrip (s : string) : string :=
  match s with
  | EmptyString => EmptyString
  | String c s' =>
      match rstrip s' with
      | EmptyString => if isspace c then EmptyString else String c EmptyString
      | r => String c r
      end
  end.

(** [s.strip()] *)
Definition strip (s : string) : string := rstrip (lstrip s).

(** [s.split()] with no separator: maximal runs of non-whitespace
    characters, in order; [acc] is the word being read. *)
Fixpoint split_from (acc : string) (s : string) : list string :=
  match s with
  | EmptyString => if truthy acc then [acc] else []
  | String c s' =>
      if isspace c
      then (if truthy acc then acc :: split_from EmptyString s'
            else split_from EmptyString s')
      else split_from (acc ++ String c EmptyString)%string s'
  end.

Definition split (s : string) : list string := split_from EmptyString s.

(** [sep.join(ws)] *)
Fixpoint join (sep : string) (ws : list string) : string :=
  match ws with
  | [] => EmptyString
  | w :: rest =>
      match rest with
      | [] => w
      | _ :: _ => (w ++ sep ++ join sep rest)%string
      end
  end.

(** [xs[start:]]: a negative start counts from the end, and every start is
    clamped into [0, len(xs)]. *)
Definition slice_from {A : Type} (start : Z) (xs : list A) : list A :=
  let n := Z.of_nat (List.length xs) in
  let lo := if (start <? 0)%Z then Z.max (n + start) 0 else Z.min start n in
  skipn (Z.to_nat lo) xs.

(** [sum(...)] over naturals. *)
Definition sum (xs : list nat) : nat := fold_right Nat.add 0 xs.

(** Truth value of a list: false exactly for the empty list. *)
Definition nonempty {A : Type} (xs : list A) : bool :=
  match xs with
  | [] => false
  | _ :: _ => true
  end.

(** [c.lower()] on code points below 256: A-Z and the Latin-1 capitals
    (all of 192..222 but the multiplication sign 215) move up by 32. *)
Definition lower_char (c : ascii) : ascii :=
  let n := nat_of_ascii c in
  if (((65 <=? n) && (n <=? 90))
      || ((192 <=? n) && (n <=? 222) && negb (n =? 215)))%nat
  then ascii_of_nat (n + 32) else c.

Fixpoint lower (s : string) : string :=
  match s with
  | EmptyString => EmptyString
  | String c s' => String (lower_char c) (lower s')
  end.

(** [x in xs] for strings. *)
Definition mem (x : string) (xs : list string) : bool :=
  existsb (String.eqb x) xs.

End Py.

(** ** Data model ([core.py], the two dataclasses) *)

Record Chunk := mkChunk {
  index : nat;
  text : string;
  token_count : nat;
  char_count : nat
}.

(** The [config] dict of a result always has exactly these three keys. *)
Record Config := mkConfig {
  cfg_max_tokens : Z;
  cfg_overlap_tokens : Z;
  cfg_model : string
}.

Record ChunkResult := mkChunkResult {
  source : string;
  total_chunks : nat;
  total_tokens : nat;
  total_chars : nat;
  chunks : list Chunk;
  config : Config
}.

(** ** Exceptions and results *)

Inductive exn :=
| FileNotFoundError (msg : string)
| ValueError (msg : string)
| KeyError (msg : string)
| Exception (msg : string).

Inductive Result (A : Type) :=
| Ok (a : A)
| Raise (e : exn).
Arguments Ok {A} a.
Arguments Raise {A} e.

(** ** The tokenizer *)

(** A tiktoken encoding, seen through its [encode] method: a text to its
    token ids. *)
Definition Encoding := string -> list nat.

(** ** class Chunkenizer *)

Record Chunkenizer := mkChunkenizer {
  max_tokens : Z;
  overlap_tokens : Z;
  model : string;
  _encoding : Encoding
}.

Section Construction.

(** [tiktoken.encoding_for_model]: [None] stands for the [KeyError] it
    raises on a model name it does not know. *)
Variable encoding_for_model : string -> option Encoding.

(** [Chunkenizer.__init__]: the three arguments are stored as they come;
    no comparison is made on [max_tokens] or [overlap_tokens]. *)
Definition init (max_tokens0 overlap_tokens0 : Z) (model0 : string)
  : Result Chunkenizer :=
  match encoding_for_model model0 with
  | Some enc => Ok (mkChunkenizer max_tokens0 overlap_tokens0 model0 enc)
  | None => Raise (KeyError model0)
  end.

End Construction.

Definition count_tokens (self : Chunkenizer) (s : string) : nat :=
  List.length (_encoding self s).

(** Loop variables of [chunk_text]. *)
Record LoopState := mkLoopState {
  st_chunks : list Chunk;
  current_words : list string;
  current_tokens : nat
}.

Section ChunkText.

Variable self : Chunkenizer.

(** [len(self._encoding.encode(w + " "))] *)
Definition word_cost (w : string) : nat :=
  List.length (_encoding self (w ++ " ")%string).

(** The [Chunk(...)] built at both places a chunk is appended. *)
Definition make_chunk (done : list Chunk) (ws : list string) : Chunk :=
  let chunk_text := Py.join " " ws in
  {| index := List.length done;
     text := chunk_text;
     token_count := count_tokens self chunk_text;
     char_count := String.length chunk_text |}.

(** [max(1, self.overlap_tokens // 4)] *)
Definition overlap_word_count : Z := Z.max 1 (overlap_tokens self / 4).

(** The body of the [if] inside the loop: save the window, keep its tail. *)
Definition commit (st : LoopState) : LoopState :=
  let kept := Py.slice_from (- overlap_word_count) (current_words st) in
  {| st_chunks := st_chunks st ++ [make_chunk (st_chunks st) (current_words st)];
     current_words := kept;
     current_tokens := Py.sum (map word_cost kept) |}.

(** The test of the [if] inside the loop. *)
Definition overflows (st : LoopState) (word : string) : bool :=
  (Z.of_nat (current_tokens st + word_cost word) >? max_tokens self)%Z
  && Py.nonempty (current_words st).

(** One iteration of [for word in words]. *)
Definition loop_body (st : LoopState) (word : string) : LoopState :=
  let word_tokens := word_cost word in
  let st1 := if overflows st word then commit st else st in
  {| st_chunks := st_chunks st1;
     current_words := current_words st1 ++ [word];
     current_tokens := current_tokens st1 + word_tokens |}.

Definition loop_init : LoopState :=
  {| st_chunks := []; current_words := []; current_tokens := 0 |}.

(** The code after the loop: the last window, when there is one. *)
Definition finish (st : LoopState) : list Chunk :=
  if Py.nonempty (current_words st)
  then st_chunks st ++ [make_chunk (st_chunks st) (current_words st)]
  else st_chunks st.

Definition chunk_text (txt : string) : list Chunk :=
  if negb (Py.truthy txt) || negb (Py.truthy (Py.strip txt))
  then []
  else finish (fold_left loop_body (Py.split txt) loop_init).

Definition result_config : Config :=
  {| cfg_max_tokens := max_tokens self;
     cfg_overlap_tokens := overlap_tokens self;
     cfg_model := model self |}.

(** The [ChunkResult(...)] expression shared by [process] and
    [process_text]. *)
Definition assemble (src : string) (cs : list Chunk) : ChunkResult :=
  {| source := src;
     total_chunks := List.length cs;
     total_tokens := Py.sum (map token_count cs);
     total_chars := Py.sum (map char_count cs);
     chunks := cs;
     config := result_config |}.

Definition process_text (txt : string) (source_name : string) : ChunkResult :=
  assemble source_name (chunk_text txt).

End ChunkText.

(** ** The extractor registry ([extractors/__init__.py]) *)

(** The five extraction functions the registry refers to. *)
Inductive Extractor :=
| extract_pdf | extract_docx | extract_xlsx | extract_csv | extract_pptx.

(** The dict [EXTRACTORS], in its insertion order. *)
Definition EXTRACTORS : list (string * Extractor) :=
  [ (".pdf", extract_pdf);
    (".docx", extract_docx);
    (".xlsx", extract_xlsx);
    (".xls", extract_xlsx);
    (".csv", extract_csv);
    (".pptx", extract_pptx) ].

(** [d[k]] and [k in d] on such a dict. *)
Fixpoint dict_get {V : Type} (k : string) (d : list (string * V)) : option V :=
  match d with
  | [] => None
  | (k', v) :: d' => if String.eqb k k' then Some v else dict_get k d'
  end.

Definition dict_keys {V : Type} (d : list (string * V)) : list string :=
  map fst d.

(** [set(EXTRACTORS.keys())]; only membership is asked of it, and the order
    in which a set lists its elements is not fixed by the language. *)
Definition get_supported_extensions : list string := dict_keys EXTRACTORS.

(** What the program finds around it: the file system and [pathlib], and the
    format libraries behind each extraction function. *)
Record World := mkWorld {
  path_exists : string -> bool;
  path_suffix : string -> string;
  path_name : string -> string;
  run_extractor : Extractor -> string -> Result string
}.

(** The only effect the claims speak of: a call of an extraction function. *)
Inductive Event :=
| Extracted (ex : Extractor) (file_path : string).

(** Computations that log their extraction calls and may raise. *)
Definition M (A : Type) : Type := list Event * Result A.

Definition ret {A : Type} (a : A) : M A := ([], Ok a).
Definition raise {A : Type} (e : exn) : M A := ([], Raise e).
Definition bind {A B : Type} (m : M A) (k : A -> M B) : M B :=
  match m with
  | (log, Ok a) => let (log', r) := k a in (log ++ log', r)
  | (log, Raise e) => (log, Raise e)
  end.

Notation "x <- m ;; k" := (bind m (fun x => k))
  (at level 61, m at next level, right associativity).

Section Process.

Variable W : World.

Definition call_extractor (ex : Extractor) (file_path : string) : M string :=
  ([Extracted ex file_path], run_extractor W ex file_path).

Definition extract_text (file_path : string) : M string :=
  let ext := Py.lower (path_suffix W file_path) in
  if negb (Py.mem ext (dict_keys EXTRACTORS))
  then raise (ValueError ("Unsupported format: " ++ ext)%string)
  else match dict_get ext EXTRACTORS with
       | Some ex => call_extractor ex file_path
       | None => raise (KeyError ext)
       end.

Variable self : Chunkenizer.

(** The class attribute, evaluated once from the registry. *)
Definition SUPPORTED_EXTENSIONS : list string := get_supported_extensions.

Definition process (file_path : string) : M ChunkResult :=
  if negb (path_exists W file_path)
  then raise (FileNotFoundError ("File not found: " ++ file_path)%string)
  else
    let ext := Py.lower (path_suffix W file_path) in
    if negb (Py.mem ext SUPPORTED_EXTENSIONS)
    then raise (ValueError ("Unsupported format: " ++ ext ++ ". Supported: "
                            ++ Py.join ", " SUPPORTED_EXTENSIONS)%string)
    else
      txt <- extract_text file_path ;;
      ret (assemble self (path_name W file_path) (chunk_text self txt)).

End Process.

(** ** A test token counter: one token per whitespace-delimited word *)

Definition word_encoding : Encoding :=
  fun s => map (fun _ => 0) (Py.split s).

Definition test_chunker (max_tokens0 overlap_tokens0 : Z) : Chunkenizer :=
  mkChunkenizer max_tokens0 overlap_tokens0 "gpt-4" word_encoding.

Definition five_words : string := "alpha beta gamma delta epsilon".

(** A second counter, one token per character: under it the cost of a word
    with its space, summed, overshoots the count of the joined text. *)
Definition char_encoding : Encoding :=
  fun s => map (fun _ => 0) (list_ascii_of_string s).

(** A tokenizer library that knows one model. *)
Definition test_encoding_for_model (m : string) : option Encoding :=
  if String.eqb m "gpt-4" then Some word_encoding else None.

(** ** A small world for the examples *)

Module Demo.

(** The text from the last dot of [s] on, when [s] has a dot. *)
Fixpoint from_last_dot (s : string) : option string :=
  match s with
  | EmptyString => None
  | String c s' =>
      match from_last_dot s' with
      | Some r => Some r
      | None => if Ascii.eqb c "."%char then Some s else None
      end
  end.

(** The text after the last slash. *)
Fixpoint name (s : string) : string :=
  match s with
  | EmptyString => EmptyString
  | String c s' =>
      if existsb (Ascii.eqb "/"%char) (list_ascii_of_string s') then name s'
      else if Ascii.eqb c "/"%char then s' else s
  end.

(** [Path.suffix]: from the last dot of the name, unless that dot is the
    first or the last character of the name. *)
Definition suffix (p : string) : string :=
  match name p with
  | EmptyString => EmptyString
  | String _ rest =>
      match from_last_dot rest with
      | Some r => if (String.length r =? 1)%nat then EmptyString else r
      | None => EmptyString
      end
  end.

Definition files : list (string * string) :=
  [ ("docs/report.PDF", five_words);
    ("docs/notes.txt", "plain text");
    ("table.csv", "a b c") ].

Definition world : World :=
  {| path_exists := fun p => Py.mem p (dict_keys files);
     path_suffix := suffix;
     path_name := name;
     run_extractor := fun _ p =>
       match dict_get p files with
       | Some t => Ok t
       | None => Raise (Exception "Failed to extract")
       end |}.

End Demo.

(** ** Words: what [split] returns and what [join] takes back *)

(** No character of [s] is whitespace. *)
Fixpoint no_space (s : string) : bool :=
  match s with
  | EmptyString => true
  | String c s' => negb (Py.isspace c) && no_space s'
  end.

(** Every character of [s] is whitespace (so also: [s] is empty). *)
Fixpoint all_space (s : string) : bool :=
  match s with
  | EmptyString => true
  | String c s' => Py.isspace c && all_space s'
  end.

(** A word: not empty, and free of whitespace. *)
Definition is_word (w : string) : Prop :=
  Py.truthy w = true /\ no_space w = true.

(** The words of a chunk, read back from its text. *)
Definition chunk_words (c : Chunk) : list string := Py.split (text c).

(** The last [n] elements of a list, in their order. *)
Definition last_n {A : Type} (n : nat) (xs : list A) : list A :=
  skipn (List.length xs - n) xs.

(** The chunks' words with the overlap taken out again: from each chunk the
    first [min k (len prev)] words go, [prev] being the chunk before it (the
    first chunk has none before it and stays whole). *)
Fixpoint strip_overlap (k : nat) (prev : list string) (cs : list (list string))
  : list string :=
  match cs with
  | [] => []
  | ws :: rest =>
      skipn (Nat.min k (List.length prev)) ws ++ strip_overlap k ws rest
  end.

Definition reassemble (k : nat) (cs : list (list string)) : list string :=
  strip_overlap k [] cs.

(** Each chunk begins with the last [min k (len prev)] words of the chunk
    before it. *)
Fixpoint overlap_linked (k : nat) (prev : list string) (cs : list (list string))
  : Prop :=
  match cs with
  | [] => True
  | ws :: rest =>
      firstn (Nat.min k (List.length prev)) ws
        = last_n (Nat.min k (List.length prev)) prev
      /\ overlap_linked k ws rest
  end.

(** ** Predicates of the statements *)

(** The number of words a commit asks to keep, as a natural number. *)
Definition overlap_words (self : Chunkenizer) : nat :=
  Z.to_nat (overlap_word_count self).

(** What the loop maintains about words: [done] are the words read so far. *)
Definition words_inv (self : Chunkenizer) (done : list string) (st : LoopState)
  : Prop :=
  let cws := map chunk_words (st_chunks st) in
  let m := Nat.min (overlap_words self) (List.length (last cws [])) in
  Forall is_word (current_words st)
  /\ strip_overlap (overlap_words self) [] cws ++ skipn m (current_words st) = done
  /\ m <= List.length (current_words st)
  /\ firstn m (current_words st) = last_n m (last cws [])
  /\ overlap_linked (overlap_words self) [] cws
  /\ Forall (fun ws => ws <> []) cws.

(** The chunk carries the tokenizer's own count of its text. *)
Definition exact_count (self : Chunkenizer) (c : Chunk) : Prop :=
  token_count c = count_tokens self (text c).

(** After [done] words: nothing happened yet, or fewer chunks are saved than
    words were read and the window holds a word. *)
Definition count_inv (done : list string) (st : LoopState) : Prop :=
  (done = [] /\ st = loop_init)
  \/ (List.length (st_chunks st) + 1 <= List.length done
      /\ current_words st <> []).

(** Two word lists have a word in common. *)
Definition share_word (a b : list string) : bool :=
  existsb (fun w => Py.mem w b) a.

(** No chunk has a word in common with the chunk after it. *)
Fixpoint consecutive_disjoint (cs : list (list string)) : bool :=
  match cs with
  | [] => true
  | a :: rest =>
      match rest with
      | [] => true
      | b :: _ => negb (share_word a b)
      end && consecutive_disjoint rest
  end.

(** Each chunk ends with the word its successor starts with. *)
Fixpoint one_word_carried (cs : list (list string)) : Prop :=
  match cs with
  | [] => True
  | a :: rest =>
      match rest with
      | [] => True
      | b :: _ => exists pre w post, a = pre ++ [w] /\ b = w :: post
      end /\ one_word_carried rest
  end.

(** The first chunk whole, every later chunk without its first word. *)
Definition drop_carried_word (cs : list (list string)) : list string :=
  match cs with
  | [] => []
  | a :: rest => a ++ List.concat (map (@tl string) rest)
  end.

(** The three totals of a result are those of its chunk list. *)
Definition aggregates_ok (r : ChunkResult) : Prop :=
  total_chunks r = List.length (chunks r)
  /\ total_tokens r = Py.sum (map token_count (chunks r))
  /\ total_chars r = Py.sum (map char_count (chunks r)).

(** The extensions the specification lists as recognized. *)
Definition recognized_extensions : list string :=
  [".pdf"; ".docx"; ".xlsx"; ".xls"; ".csv"; ".pptx"].

(** A window of two words under a budget of two, about to receive a third. *)
Definition full_window : LoopState :=
  {| st_chunks := []; current_words := ["alpha"; "beta"]; current_tokens := 2 |}.

(** ** Further predicates on the chunk sequence *)

(** A relation that holds between every chunk and the chunk before it;
    [prev] stands before the first chunk. *)
Fixpoint chunk_chain (R : list string -> list string -> Prop)
         (prev : list string) (cs : list (list string)) : Prop :=
  match cs with
  | [] => True
  | ws :: rest => R prev ws /\ chunk_chain R ws rest
  end.

(** The running estimate of a window: the sum of its words' costs. *)
Definition window_cost (self : Chunkenizer) (ws : list string) : nat :=
  Py.sum (map (word_cost self) ws).

(** How many words a commit of the window [prev] keeps. *)
Definition carried_from (self : Chunkenizer) (prev : list string) : nat :=
  Nat.min (overlap_words self) (List.length prev).

(** The chunk has more words than it took over from [prev]. *)
Definition advances (self : Chunkenizer) (prev ws : list string) : Prop :=
  carried_from self prev < List.length ws.

(** The chunk's estimate is within [max_tokens], or the chunk is what was
    taken over from [prev] and one word more. *)
Definition budgeted (self : Chunkenizer) (prev ws : list string) : Prop :=
  (Z.of_nat (window_cost self ws) <= max_tokens self)%Z
  \/ List.length ws = carried_from self prev + 1.

(** What the loop maintains about the estimate and about progress. *)
Definition budget_inv (self : Chunkenizer) (st : LoopState) : Prop :=
  let cws := map chunk_words (st_chunks st) in
  current_tokens st = window_cost self (current_words st)
  /\ chunk_chain (fun prev ws => advances self prev ws /\ budgeted self prev ws)
                 [] cws
  /\ ((current_words st = [] /\ cws = [])
      \/ (advances self (last cws []) (current_words st)
          /\ budgeted self (last cws []) (current_words st))).

(** The shape of a saved chunk: its text is the space join of words, and
    its character count is the length of that text. *)
Definition chunk_shape (c : Chunk) : Prop :=
  (exists ws, ws <> [] /\ Forall is_word ws /\ text c = Py.join " " ws)
  /\ char_count c = String.length (text c).

(** ** The dataclass methods ([core.py]) *)

(** A Python value as [to_dict] builds it: integers, strings, lists, and
    dicts with string keys in insertion order. *)
#[warnings="-register-all"]
Inductive Value :=
| VInt (n : Z)
| VStr (s : string)
| VList (xs : list Value)
| VDict (kvs : list (string * Value)).

(** [Chunk.to_dict] *)
Definition chunk_to_dict (c : Chunk) : Value :=
  VDict [ ("index", VInt (Z.of_nat (index c)));
          ("text", VStr (text c));
          ("token_count", VInt (Z.of_nat (token_count c)));
          ("char_count", VInt (Z.of_nat (char_count c))) ].

(** The [config] dict of a result, as [process] and [process_text] fill it. *)
Definition config_to_dict (cfg : Config) : Value :=
  VDict [ ("max_tokens", VInt (cfg_max_tokens cfg));
          ("overlap_tokens", VInt (cfg_overlap_tokens cfg));
          ("model", VStr (cfg_model cfg)) ].

(** [ChunkResult.to_dict] *)
Definition to_dict (r : ChunkResult) : Value :=
  VDict [ ("source", VStr (source r));
          ("total_chunks", VInt (Z.of_nat (total_chunks r)));
          ("total_tokens", VInt (Z.of_nat (total_tokens r)));
          ("total_chars", VInt (Z.of_nat (total_chars r)));
          ("config", config_to_dict (config r));
          ("chunks", VList (map chunk_to_dict (chunks r))) ].

(** [ChunkResult.to_texts] *)
Definition to_texts (r : ChunkResult) : list string := map text (chunks r).

(** [s[:n]] for a natural [n]: the first [n] characters, all of [s] when it
    is shorter. *)
Fixpoint str_take (n : nat) (s : string) : string :=
  match n, s with
  | O, _ => EmptyString
  | S _, EmptyString => EmptyString
  | S n', String c s' => String c (str_take n' s')
  end.

(** The text shown for a chunk by the command line preview and by the usage
    example: [text[:200] + "..." if len(text) > 200 else text]. *)
Definition preview_text (t : string) : string :=
  if (200 <? String.length t)%nat then (str_take 200 t ++ "...")%string else t.

(** ** The command line ([cli.py])

    Of the two commands, the data they compute and the files and JSON text
    they emit are modelled; what they draw on the console through [rich]
    (panels of titles, tables, progress bars) is not part of the model,
    the preview panels apart. *)

(** [str(n)] and [f"{n}"] for a natural number. *)
Definition str_of_nat (n : nat) : string :=
  NilZero.string_of_uint (Nat.to_uint n).

(** What the commands find around them, beyond the [World] of [process]. *)
Record Shell := mkShell {
  sh_world : World;
  sh_encoding_for_model : string -> option Encoding;
  is_dir : string -> bool;
  glob : string -> string -> list string;
  path_stem : string -> string;
  path_join : string -> string -> string;
  mkdir : string -> option exn;
  write_json : string -> Value -> option exn;
  py_repr : string -> string
}.

(** [str(e)]: the message of the exception; for a [KeyError], the [repr] of
    its key. *)
Definition str_exn (S : Shell) (e : exn) : string :=
  match e with
  | KeyError m => py_repr S m
  | FileNotFoundError m => m
  | ValueError m => m
  | Exception m => m
  end.

(** An optional string option of a command, as [if option:] reads it:
    absent when it is [None] or empty. *)
Definition given (o : option string) : option string :=
  match o with
  | Some s => if Py.truthy s then Some s else None
  | None => None
  end.

(** One entry of [results_summary]. *)
Record Row := mkRow {
  row_file : string;
  row_chunks : nat;
  row_tokens : nat;
  row_status : string
}.

(** What a command emits besides console drawing. *)
Inductive Emit :=
| PreviewPanel (title body : string)
| WriteJson (path : string) (v : Value)
| PrintJson (v : Value).

Inductive CliOutcome :=
| CliExit (code : Z)
| CliCrash (e : exn)
| CliDone.

Section Cli.

Variable S : Shell.

Definition error_row (file_path : string) (e : exn) : Row :=
  {| row_file := path_name (sh_world S) file_path;
     row_chunks := 0;
     row_tokens := 0;
     row_status := ("error: " ++ str_take 50 (str_exn S e))%string |}.

Definition success_row (file_path : string) (result : ChunkResult) : Row :=
  {| row_file := path_name (sh_world S) file_path;
     row_chunks := total_chunks result;
     row_tokens := total_tokens result;
     row_status := "success" |}.

(** The [try] ... [except Exception] of the batch loop, for one file: the
    rows appended to [results_summary] and the files written. *)
Definition batch_file (chunker : Chunkenizer) (output_dir : option string)
           (file_path : string) : list Row * list Emit :=
  match snd (process (sh_world S) chunker file_path) with
  | Ok result =>
      match given output_dir with
      | Some out =>
          let out_file :=
            path_join S out (path_stem S file_path ++ ".json")%string in
          match write_json S out_file (to_dict result) with
          | None => ([success_row file_path result],
                     [WriteJson out_file (to_dict result)])
          | Some e => ([success_row file_path result; error_row file_path e],
                       [])
          end
      | None => ([success_row file_path result], [])
      end
  | Raise e => ([error_row file_path e], [])
  end.

(** [for file_path in files: ...] *)
Definition batch_loop (chunker : Chunkenizer) (output_dir : option string)
           (files : list string) : list Row * list Emit :=
  fold_left
    (fun (acc : list Row * list Emit) (file_path : string) =>
       let (rows, emitted) := acc in
       let (rows', emitted') := batch_file chunker output_dir file_path in
       (rows ++ rows', emitted ++ emitted'))
    files ([], []).



(** The panel of one previewed chunk. *)
Definition preview_panel (c : Chunk) : Emit :=
  PreviewPanel ("Chunk " ++ str_of_nat (index c + 1) ++ " ("
                ++ str_of_nat (token_count c) ++ " tokens)")%string
               (preview_text (text c)).

(** The command [process]. *)
Definition cli_process (file_path : string) (output : option string)
           (max_tokens0 overlap preview : Z) (quiet : bool)
  : list Emit * CliOutcome :=
  if negb (path_exists (sh_world S) file_path) then ([], CliExit 1)
  else
    match init (sh_encoding_for_model S) max_tokens0 overlap "gpt-4" with
    | Raise e => ([], CliCrash e)
    | Ok chunker =>
        if negb (Py.mem (Py.lower (path_suffix (sh_world S) file_path))
                        get_supported_extensions)
        then ([], CliExit 1)
        else
          match snd (process (sh_world S) chunker file_path) with
          | Raise e => ([], CliCrash e)
          | Ok result =>
              let panels :=
                if (preview >? 0)%Z && negb quiet
                then map preview_panel
                         (firstn (Z.to_nat preview) (chunks result))
                else [] in
              match given output with
              | Some out =>
                  match write_json S out (to_dict result) with
                  | None =>
                      (panels ++ [WriteJson out (to_dict result)], CliDone)
                  | Some e => (panels, CliCrash e)
                  end
              | None =>
                  if quiet
                  then (panels ++ [PrintJson (to_dict result)], CliDone)
                  else (panels, CliDone)
              end
          end
    end.

End Cli.

(** The JSON emissions among what a command emitted. *)
Definition is_json (ev : Emit) : bool :=
  match ev with
  | PreviewPanel _ _ => false
  | WriteJson _ _ => true
  | PrintJson _ => true
  end.

(** A file whose result was computed and whose JSON file could not be
    written. *)
Definition write_failed (S : Shell) (chunker : Chunkenizer)
           (output_dir : option string) (file_path : string) : bool :=
  match snd (process (sh_world S) chunker file_path), given output_dir with
  | Ok result, Some out =>
      match write_json S
              (path_join S out (path_stem S file_path ++ ".json")%string)
              (to_dict result) with
      | Some _ => true
      | None => false
      end
  | _, _ => false
  end.

(** A shell over the demo world in which one output file cannot be
    written. *)
Definition demo_shell : Shell :=
  {| sh_world := Demo.world;
     sh_encoding_for_model := test_encoding_for_model;
     is_dir := fun d => String.eqb d "docs";
     glob := fun d _ =>
       if String.eqb d "docs"
       then ["docs/report.PDF"; "docs/notes.txt"; "docs/gone.pdf"]
       else [];
     path_stem := fun p =>
       str_take (String.length (Demo.name p) - String.length (Demo.suffix p))
                (Demo.name p);
     path_join := fun d n => (d ++ "/" ++ n)%string;
     mkdir := fun _ => None;
     write_json := fun p _ =>
       if String.eqb p "ro/report.json"
       then Some (Exception "Permission denied") else None;
     py_repr := fun s => ("'" ++ s ++ "'")%string |}.

(** ** The extraction functions ([extractors/pdf.py], [docx.py], [pptx.py])

    Each function reads the file through a format library inside one [try]
    and builds the text from what it read. The library side of a run is a
    [LibResult]: the data the calls returned, or the text [str(e)] of the
    exception one of them raised (wherever in the [try] it happened, the
    function does the same with it). The CSV and Excel functions render
    their tables through pandas and are not modelled beyond their outcome. *)

Inductive LibResult (A : Type) :=
| LibOk (a : A)
| LibFail (msg : string).
Arguments LibOk {A} a.
Arguments LibFail {A} msg.

(** The newline character, as a string. *)
Definition nl : string := String "010"%char EmptyString.

(** [enumerate(xs, 1)] *)
Definition enumerate1 {A : Type} (xs : list A) : list (nat * A) :=
  combine (seq 1 (List.length xs)) xs.

(** [x.strip()] is truthy. *)
Definition nonblank (s : string) : bool := Py.truthy (Py.strip s).

(** A table as the libraries give it: rows of cell texts. *)
Definition Table := list (list string).

(** The rows of a table as both Word and PowerPoint extraction write them:
    [" | ".join(cell.text.strip() for cell in row.cells)]. *)
Definition table_rows (t : Table) : list string :=
  map (fun row => Py.join " | " (map Py.strip row)) t.

(** A Word document: the texts of its paragraphs and its tables. *)
Record DocxDocument := mkDocx {
  paragraphs : list string;
  tables : list Table
}.

(** A PowerPoint shape: its text when it has the attribute, its table when
    [has_table] holds. *)
Record Shape := mkShape {
  shape_text : option string;
  shape_table : option Table
}.

(** A slide: its shapes, and the text of its notes when it has a notes
    slide. *)
Record Slide := mkSlide {
  shapes : list Shape;
  notes : option string
}.

(** What the format libraries return for a path. *)
Record Libraries := mkLibraries {
  fitz_pages : string -> LibResult (list string);
  docx_document : string -> LibResult DocxDocument;
  pptx_slides : string -> LibResult (list Slide);
  csv_outcome : string -> Result string;
  xlsx_outcome : string -> Result string
}.

Module Pdf.

(** [f"[Page {page_num}]\n{page_text}"] *)
Definition page_part (p : nat * string) : string :=
  ("[Page " ++ str_of_nat (fst p) ++ "]" ++ nl ++ snd p)%string.

(** The text built from the page texts of the document. *)
Definition render (pages : list string) : string :=
  Py.join (nl ++ nl)
          (map page_part
               (filter (fun p => nonblank (snd p)) (enumerate1 pages))).

Definition extract_pdf (L : Libraries) (file_path : string) : Result string :=
  match fitz_pages L file_path with
  | LibOk pages => Ok (render pages)
  | LibFail msg => Raise (Exception ("Failed to extract PDF: " ++ msg)%string)
  end.

End Pdf.

Module Docx.

(** [f"\n[Table {table_idx}]\n{table_text}\n"] *)
Definition table_part (p : nat * Table) : string :=
  (nl ++ "[Table " ++ str_of_nat (fst p) ++ "]" ++ nl
      ++ Py.join nl (table_rows (snd p)) ++ nl)%string.

Definition render (doc : DocxDocument) : string :=
  Py.join (nl ++ nl)
          (filter nonblank (paragraphs doc)
           ++ map table_part
                  (filter (fun p => Py.nonempty (table_rows (snd p)))
                          (enumerate1 (tables doc)))).

Definition extract_docx (L : Libraries) (file_path : string) : Result string :=
  match docx_document L file_path with
  | LibOk doc => Ok (render doc)
  | LibFail msg =>
      Raise (Exception ("Failed to extract Word document: " ++ msg)%string)
  end.

End Docx.

Module Pptx.

(** What one shape appends to [slide_content]. *)
Definition shape_parts (sh : Shape) : list string :=
  match shape_text sh with
  | Some t => if nonblank t then [t] else []
  | None => []
  end
  ++ match shape_table sh with
     | Some t =>
         if Py.nonempty (table_rows t)
         then [(nl ++ "[Table]" ++ nl ++ Py.join nl (table_rows t))%string]
         else []
     | None => []
     end.

Definition notes_parts (sl : Slide) : list string :=
  match notes sl with
  | Some t => if nonblank t then [(nl ++ "[Notes]" ++ nl ++ t)%string] else []
  | None => []
  end.

(** ["\n".join(slide_content)] *)
Definition slide_part (p : nat * Slide) : string :=
  Py.join nl
          ((("[Slide " ++ str_of_nat (fst p) ++ "]")%string
            :: flat_map shape_parts (shapes (snd p)))
           ++ notes_parts (snd p)).

Definition separator : string := (nl ++ nl ++ "---" ++ nl ++ nl)%string.

Definition render (slides : list Slide) : string :=
  Py.join separator (map slide_part (enumerate1 slides)).

Definition extract_pptx (L : Libraries) (file_path : string) : Result string :=
  match pptx_slides L file_path with
  | LibOk slides => Ok (render slides)
  | LibFail msg =>
      Raise (Exception ("Failed to extract PowerPoint: " ++ msg)%string)
  end.

End Pptx.


(** The words of a row of cells: the words of each cell, a bar between two
    cells. *)
Definition cells_words (row : list string) : list string :=
  match row with
  | [] => []
  | c :: rest => Py.split c ++ flat_map (fun c' => "|" :: Py.split c') rest
  end.

(** The words of a page of a PDF in the extracted text. *)
Definition page_words (p : nat * string) : list string :=
  "[Page" :: (str_of_nat (fst p) ++ "]")%string :: Py.split (snd p).

(** The words of a table of a Word document in the extracted text. *)
Definition docx_table_words (p : nat * Table) : list string :=
  "[Table" :: (str_of_nat (fst p) ++ "]")%string
  :: flat_map cells_words (snd p).

(** The words of a slide in the extracted text. *)
Definition shape_words (sh : Shape) : list string :=
  match shape_text sh with
  | Some t => Py.split t
  | None => []
  end
  ++ match shape_table sh with
     | Some (r :: rows) => "[Table]" :: flat_map cells_words (r :: rows)
     | _ => []
     end.

Definition notes_words (sl : Slide) : list string :=
  match notes sl with
  | Some t => if nonblank t then "[Notes]" :: Py.split t else []
  | None => []
  end.

Definition slide_words (p : nat * Slide) : list string :=
  "[Slide" :: (str_of_nat (fst p) ++ "]")%string
  :: flat_map shape_words (shapes (snd p)) ++ notes_words (snd p).


(** ** Lemmas on the string built-ins *)

Section StringFacts.

Lemma append_empty_r (s : string) : (s ++ "")%string = s.
Proof. induction s as [|c s IH]; simpl; [reflexivity | now rewrite IH]. Qed.

Lemma append_assoc (a b c : string) :
  ((a ++ b) ++ c)%string = (a ++ (b ++ c))%string.
Proof. induction a as [|x a IH]; simpl; [reflexivity | now rewrite IH]. Qed.

Lemma truthy_append_l (a b : string) :
  Py.truthy a = true -> Py.truthy (a ++ b)%string = true.
Proof. destruct a; simpl; [discriminate | reflexivity]. Qed.

Lemma no_space_append (a b : string) :
  no_space (a ++ b)%string = no_space a && no_space b.
Proof.
  induction a as [|x a IH]; simpl; [reflexivity|].
  now rewrite IH, andb_assoc.
Qed.

(** Reading a whitespace-free stretch only grows the word being read. *)
Lemma split_from_word (w acc rest : string) :
  no_space w = true ->
  Py.split_from acc (w ++ rest)%string = Py.split_from (acc ++ w)%string rest.
Proof.
  revert acc. induction w as [|c w IH]; intros acc Hw; simpl.
  - now rewrite append_empty_r.
  - simpl in Hw. apply andb_true_iff in Hw as [Hc Hw].
    apply negb_true_iff in Hc. rewrite Hc, (IH _ Hw), append_assoc.
    reflexivity.
Qed.

(** [split] undoes [" ".join] on words. *)
Lemma split_join (ws : list string) :
  Forall is_word ws -> Py.split (Py.join " " ws) = ws.
Proof.
  unfold Py.split. induction ws as [|w ws IH]; intros H; [reflexivity|].
  inversion H as [|? ? [Ht Hn] Hws]; subst.
  destruct ws as [|w2 ws].
  - simpl. rewrite <- (append_empty_r w) at 1.
    rewrite (split_from_word w "" "" Hn). simpl. now rewrite Ht.
  - change (Py.join " " (w :: w2 :: ws))
      with (w ++ (" " ++ Py.join " " (w2 :: ws)))%string.
    specialize (IH Hws).
    remember (Py.join " " (w2 :: ws)) as j eqn:Hj in *.
    rewrite (split_from_word w "" _ Hn). simpl.
    rewrite Ht, IH. reflexivity.
Qed.

Lemma split_from_words (s acc : string) :
  no_space acc = true -> Forall is_word (Py.split_from acc s).
Proof.
  revert acc. induction s as [|c s IH]; intros acc Hacc; simpl.
  - destruct (Py.truthy acc) eqn:Ht; constructor; [split; assumption | constructor].
  - destruct (Py.isspace c) eqn:Hc.
    + destruct (Py.truthy acc) eqn:Ht.
      * constructor; [split; assumption | now apply IH].
      * now apply IH.
    + apply IH. rewrite no_space_append, Hacc. simpl. now rewrite Hc.
Qed.

(** [split] returns words only. *)
Lemma split_words (s : string) : Forall is_word (Py.split s).
Proof. now apply split_from_words. Qed.

Lemma lstrip_all_space (s : string) :
  all_space s = true -> Py.lstrip s = "".
Proof.
  induction s as [|c s IH]; simpl; [reflexivity|].
  intros H. apply andb_true_iff in H as [Hc Hs]. now rewrite Hc, IH.
Qed.

Lemma rstrip_empty (s : string) :
  Py.rstrip s = "" -> all_space s = true.
Proof.
  induction s as [|c s IH]; simpl; [reflexivity|].
  destruct (Py.rstrip s) eqn:Hr.
  - destruct (Py.isspace c); [intros _; now rewrite IH | discriminate].
  - discriminate.
Qed.

Lemma lstrip_space_all (s : string) :
  all_space (Py.lstrip s) = true -> all_space s = true.
Proof.
  induction s as [|c s IH]; simpl; [reflexivity|].
  destruct (Py.isspace c) eqn:Hc; simpl.
  - exact IH.
  - now rewrite Hc.
Qed.

Lemma split_all_space (s : string) :
  all_space s = true -> Py.split s = [].
Proof.
  unfold Py.split. induction s as [|c s IH]; simpl; [reflexivity|].
  intros H. apply andb_true_iff in H as [Hc Hs]. now rewrite Hc, IH.
Qed.

(** Blank text, as the guard of [chunk_text] sees it. *)
Lemma strip_all_space (s : string) :
  all_space s = true -> Py.truthy (Py.strip s) = false.
Proof. intros H. unfold Py.strip. now rewrite lstrip_all_space. Qed.

Lemma strip_falsy_split (s : string) :
  Py.truthy (Py.strip s) = false -> Py.split s = [].
Proof.
  intros H. apply split_all_space, lstrip_space_all, rstrip_empty.
  unfold Py.strip in H. now destruct (Py.rstrip (Py.lstrip s)).
Qed.

Lemma falsy_split (s : string) : Py.truthy s = false -> Py.split s = [].
Proof. destruct s; [reflexivity | discriminate]. Qed.

End StringFacts.

(** ** Lemmas on lists, slices and the overlap bookkeeping *)

Section ListFacts.

Context {A : Type}.

(** A negative slice start [-k], [k >= 1], keeps the last [min k len]
    elements. *)
Lemma slice_from_neg (k : Z) (xs : list A) :
  (1 <= k)%Z ->
  Py.slice_from (- k) xs = last_n (Nat.min (Z.to_nat k) (List.length xs)) xs.
Proof.
  intros Hk. unfold Py.slice_from, last_n.
  replace (- k <? 0)%Z with true by (symmetry; apply Z.ltb_lt; lia).
  f_equal. lia.
Qed.

Lemma length_last_n (n : nat) (xs : list A) :
  n <= List.length xs -> List.length (last_n n xs) = n.
Proof. intros H. unfold last_n. rewrite length_skipn. lia. Qed.

Lemma skipn_snoc_le (n : nat) (xs : list A) (x : A) :
  n <= List.length xs -> skipn n (xs ++ [x]) = skipn n xs ++ [x].
Proof.
  intros H. rewrite skipn_app.
  replace (n - List.length xs) with 0 by lia. reflexivity.
Qed.

Lemma firstn_snoc_le (n : nat) (xs : list A) (x : A) :
  n <= List.length xs -> firstn n (xs ++ [x]) = firstn n xs.
Proof.
  intros H. rewrite firstn_app.
  replace (n - List.length xs) with 0 by lia. simpl. apply app_nil_r.
Qed.

Lemma Forall_last_n (P : A -> Prop) (n : nat) (xs : list A) :
  Forall P xs -> Forall P (last_n n xs).
Proof.
  intros H. unfold last_n.
  rewrite <- (firstn_skipn (List.length xs - n) xs) in H.
  now apply Forall_app in H.
Qed.

Lemma last_cons_default (x : A) (xs : list A) (d d' : A) :
  last (x :: xs) d = last (x :: xs) d'.
Proof.
  revert x. induction xs as [|y ys IH]; intros x; [reflexivity|].
  change (last (y :: ys) d = last (y :: ys) d'). apply IH.
Qed.

(** A [for] loop keeps what each of its iterations keeps. *)
Lemma fold_left_inv {S : Type} (step : S -> A -> S)
      (Q : A -> Prop) (P : list A -> S -> Prop) :
  (forall done st x, Q x -> P done st -> P (done ++ [x]) (step st x)) ->
  forall xs init, Forall Q xs -> P [] init -> P xs (fold_left step xs init).
Proof.
  intros Hstep xs init HQ H0.
  enough (G : forall ys done st, Forall Q ys -> P done st ->
              P (done ++ ys) (fold_left step ys st))
    by exact (G xs [] init HQ H0).
  induction ys as [|y ys IH]; intros done st Hys HP; simpl.
  - now rewrite app_nil_r.
  - inversion Hys; subst.
    replace (done ++ y :: ys) with ((done ++ [y]) ++ ys)
      by (rewrite <- app_assoc; reflexivity).
    apply IH; [assumption | now apply Hstep].
Qed.

End ListFacts.

Section OverlapFacts.

Variable k : nat.

Lemma strip_overlap_snoc (cs : list (list string)) (prev c : list string) :
  strip_overlap k prev (cs ++ [c])
  = strip_overlap k prev cs
      ++ skipn (Nat.min k (List.length (last cs prev))) c.
Proof.
  revert prev. induction cs as [|ws cs IH]; intros prev; simpl.
  - now rewrite app_nil_r.
  - rewrite IH, app_assoc. destruct cs as [|ws' cs]; [reflexivity|].
    now rewrite (last_cons_default ws' cs ws prev).
Qed.

Lemma overlap_linked_snoc (cs : list (list string)) (prev c : list string) :
  overlap_linked k prev cs ->
  firstn (Nat.min k (List.length (last cs prev))) c
    = last_n (Nat.min k (List.length (last cs prev))) (last cs prev) ->
  overlap_linked k prev (cs ++ [c]).
Proof.
  revert prev. induction cs as [|ws cs IH]; intros prev Hl Hc; simpl in *.
  - split; [exact Hc | exact I].
  - destruct Hl as [Hw Hl]. split; [exact Hw|].
    apply IH; [exact Hl|]. destruct cs as [|ws' cs]; [exact Hc|].
    now rewrite (last_cons_default ws' cs ws prev).
Qed.

End OverlapFacts.

(** ** The loop of [chunk_text] *)

Section LoopFacts.

Variable self : Chunkenizer.

Lemma overlap_word_count_pos : (1 <= overlap_word_count self)%Z.
Proof. unfold overlap_word_count. lia. Qed.

Lemma overlap_words_pos : 1 <= overlap_words self.
Proof. unfold overlap_words. pose proof overlap_word_count_pos. lia. Qed.

(** The slice of the commit, as a count of words kept. *)
Lemma commit_kept (st : LoopState) :
  current_words (commit self st)
  = last_n (Nat.min (overlap_words self) (List.length (current_words st)))
           (current_words st).
Proof.
  unfold commit, overlap_words. simpl.
  apply slice_from_neg, overlap_word_count_pos.
Qed.

Lemma commit_chunks (st : LoopState) :
  st_chunks (commit self st)
  = st_chunks st ++ [make_chunk self (st_chunks st) (current_words st)].
Proof. reflexivity. Qed.

Lemma chunk_words_make (done : list Chunk) (ws : list string) :
  Forall is_word ws -> chunk_words (make_chunk self done ws) = ws.
Proof. intros H. unfold chunk_words. simpl. now apply split_join. Qed.

Lemma overflows_nonempty (st : LoopState) (w : string) :
  overflows self st w = true -> current_words st <> [].
Proof.
  unfold overflows. intros H. apply andb_true_iff in H as [_ H].
  destruct (current_words st); [discriminate | congruence].
Qed.

Lemma words_inv_init : words_inv self [] (loop_init).
Proof.
  unfold words_inv, loop_init, last_n. simpl.
  rewrite Nat.min_0_r. simpl. repeat split; auto.
Qed.

Lemma words_inv_step (done : list string) (st : LoopState) (w : string) :
  is_word w -> words_inv self done st ->
  words_inv self (done ++ [w]) (loop_body self st w).
Proof.
  intros Hw (Hcur & Hdone & Hm & Hfirst & Hlink & Hne).
  unfold loop_body. destruct (overflows self st w) eqn:Hov.
  - (* the window is committed, its tail kept, then the word added *)
    pose proof (overflows_nonempty _ _ Hov) as Hcne.
    unfold words_inv. cbn [st_chunks current_words current_tokens].
    rewrite commit_kept, commit_chunks, map_app. cbn [map].
    rewrite (chunk_words_make _ _ Hcur), last_last.
    set (m' := Nat.min (overlap_words self) (List.length (current_words st))).
    assert (Hlen : List.length (last_n m' (current_words st)) = m')
      by (apply length_last_n; unfold m'; lia).
    repeat split.
    + apply Forall_app; split; [now apply Forall_last_n|].
      constructor; [exact Hw | constructor].
    + rewrite strip_overlap_snoc, Hdone, skipn_app, Hlen, Nat.sub_diag.
      rewrite skipn_all2 by lia. reflexivity.
    + rewrite length_app, Hlen. lia.
    + rewrite firstn_app, Hlen, Nat.sub_diag, firstn_all2 by lia.
      simpl. apply app_nil_r.
    + now apply overlap_linked_snoc.
    + apply Forall_app; split; [assumption|].
      constructor; [exact Hcne | constructor].
  - (* the word joins the window *)
    unfold words_inv. cbn [st_chunks current_words current_tokens].
    repeat split; try assumption.
    + apply Forall_app; split; [assumption|].
      constructor; [exact Hw | constructor].
    + rewrite skipn_snoc_le by assumption. now rewrite app_assoc, Hdone.
    + rewrite length_app. simpl. lia.
    + now rewrite firstn_snoc_le.
Qed.

Lemma words_inv_loop (txt : string) :
  words_inv self (Py.split txt)
            (fold_left (loop_body self) (Py.split txt) loop_init).
Proof.
  apply (fold_left_inv (loop_body self) is_word (words_inv self)).
  - intros done st x Hx HP. now apply words_inv_step.
  - apply split_words.
  - apply words_inv_init.
Qed.

(** The words of the chunks of [finish], from the invariant. *)
Lemma words_inv_finish (done : list string) (st : LoopState) :
  words_inv self done st ->
  let cws := map chunk_words (finish self st) in
  reassemble (overlap_words self) cws = done
  /\ overlap_linked (overlap_words self) [] cws
  /\ Forall (fun ws => ws <> []) cws.
Proof.
  intros (Hcur & Hdone & Hm & Hfirst & Hlink & Hne). unfold finish, reassemble.
  destruct (current_words st) as [|w0 cur] eqn:Hc; cbn [Py.nonempty].
  - cbn zeta. rewrite skipn_nil, app_nil_r in Hdone. auto.
  - cbn zeta. rewrite map_app. cbn [map].
    rewrite (chunk_words_make _ _ Hcur).
    repeat split.
    + now rewrite strip_overlap_snoc.
    + now apply overlap_linked_snoc.
    + apply Forall_app; split; [assumption|].
      constructor; [rewrite <- Hc; congruence | constructor].
Qed.

(** The word-level shape of the result of [chunk_text]: the overlap taken
    out, the chunks give back the words of the text; each chunk starts
    with the tail of the previous one; none is empty. *)
Lemma chunk_text_words (txt : string) :
  let cws := map chunk_words (chunk_text self txt) in
  reassemble (overlap_words self) cws = Py.split txt
  /\ overlap_linked (overlap_words self) [] cws
  /\ Forall (fun ws => ws <> []) cws.
Proof.
  unfold chunk_text.
  destruct (negb (Py.truthy txt) || negb (Py.truthy (Py.strip txt))) eqn:Hg.
  - cbn. repeat split; auto. symmetry.
    apply orb_true_iff in Hg as [Hg | Hg]; apply negb_true_iff in Hg.
    + now apply falsy_split.
    + now apply strip_falsy_split.
  - apply words_inv_finish, words_inv_loop.
Qed.

End LoopFacts.

(** ** Counting and recount invariants of the loop *)

Section CountFacts.

Variable self : Chunkenizer.

Lemma Forall_trivial {A : Type} (xs : list A) : Forall (fun _ => True) xs.
Proof. apply Forall_forall. auto. Qed.

Lemma exact_count_make (done : list Chunk) (ws : list string) :
  exact_count self (make_chunk self done ws).
Proof. reflexivity. Qed.

Lemma exact_step (st : LoopState) (w : string) :
  Forall (exact_count self) (st_chunks st) ->
  Forall (exact_count self) (st_chunks (loop_body self st w)).
Proof.
  intros H. unfold loop_body. destruct (overflows self st w); simpl; [|exact H].
  apply Forall_app; split; [exact H|].
  constructor; [apply exact_count_make | constructor].
Qed.

Lemma exact_loop (ws : list string) :
  Forall (exact_count self)
         (st_chunks (fold_left (loop_body self) ws loop_init)).
Proof.
  apply (fold_left_inv (loop_body self) (fun _ => True)
           (fun _ st => Forall (exact_count self) (st_chunks st))).
  - intros done st x _ H. now apply exact_step.
  - apply Forall_trivial.
  - constructor.
Qed.

(** The first word finds the window empty: no commit. *)
Lemma first_word_no_commit (w : string) : overflows self loop_init w = false.
Proof. unfold overflows. simpl. apply andb_false_r. Qed.

(** One word, at most one commit. *)
Lemma step_chunks_length (st : LoopState) (w : string) :
  List.length (st_chunks (loop_body self st w))
  = List.length (st_chunks st) + (if overflows self st w then 1 else 0).
Proof.
  unfold loop_body. destruct (overflows self st w); simpl.
  - now rewrite length_app.
  - lia.
Qed.

Lemma step_window_nonempty (st : LoopState) (w : string) :
  current_words (loop_body self st w) <> [].
Proof.
  unfold loop_body. simpl. intros H. now apply app_eq_nil in H as [_ H].
Qed.

Lemma count_inv_step (done : list string) (st : LoopState) (w : string) :
  count_inv done st -> count_inv (done ++ [w]) (loop_body self st w).
Proof.
  intros [[Hd Hs] | [Hl Hc]]; right; split;
    try apply step_window_nonempty;
    rewrite step_chunks_length, length_app; simpl.
  - subst. rewrite first_word_no_commit. simpl. lia.
  - destruct (overflows self st w); lia.
Qed.

Lemma count_inv_loop (ws : list string) :
  count_inv ws (fold_left (loop_body self) ws loop_init).
Proof.
  apply (fold_left_inv (loop_body self) (fun _ => True) count_inv).
  - intros done st x _ H. now apply count_inv_step.
  - apply Forall_trivial.
  - left. split; reflexivity.
Qed.

(** The code after the loop: one more chunk exactly when words remain. *)
Lemma finish_length (st : LoopState) :
  List.length (finish self st)
  = List.length (st_chunks st)
    + (if Py.nonempty (current_words st) then 1 else 0).
Proof.
  unfold finish. destruct (Py.nonempty (current_words st)).
  - now rewrite length_app.
  - lia.
Qed.

Lemma chunk_text_length (txt : string) :
  List.length (chunk_text self txt) <= List.length (Py.split txt).
Proof.
  unfold chunk_text.
  destruct (negb (Py.truthy txt) || negb (Py.truthy (Py.strip txt)));
    [simpl; lia|].
  rewrite finish_length.
  destruct (count_inv_loop (Py.split txt)) as [[Hd Hs] | [Hl Hc]].
  - rewrite Hs, Hd. simpl. lia.
  - destruct (Py.nonempty _); lia.
Qed.

End CountFacts.

(** ** [chunk_text] sees its tokenizer only through two kinds of counts *)

Section CounterExt.

Variables self1 self2 : Chunkenizer.
Hypothesis Hmax : max_tokens self1 = max_tokens self2.
Hypothesis Hovl : overlap_tokens self1 = overlap_tokens self2.
Hypothesis Hcost :
  forall w, is_word w -> word_cost self1 w = word_cost self2 w.
Hypothesis Hcount :
  forall ws, Forall is_word ws -> ws <> [] ->
    count_tokens self1 (Py.join " " ws) = count_tokens self2 (Py.join " " ws).

Lemma make_chunk_ext (done : list Chunk) (ws : list string) :
  Forall is_word ws -> ws <> [] ->
  make_chunk self1 done ws = make_chunk self2 done ws.
Proof. intros Hw Hne. unfold make_chunk. now rewrite Hcount. Qed.

Lemma overflows_ext (st : LoopState) (w : string) :
  is_word w -> overflows self1 st w = overflows self2 st w.
Proof. intros Hw. unfold overflows. now rewrite Hcost, Hmax. Qed.

Lemma commit_ext (st : LoopState) :
  Forall is_word (current_words st) -> current_words st <> [] ->
  commit self1 st = commit self2 st.
Proof.
  intros Hw Hne. unfold commit, overlap_word_count.
  rewrite Hovl, (make_chunk_ext _ _ Hw Hne). f_equal.
  f_equal. apply map_ext_in. intros w Hin. apply Hcost.
  assert (Hk : Forall is_word
                 (Py.slice_from (- Z.max 1 (overlap_tokens self2 / 4))
                                (current_words st))).
  { rewrite slice_from_neg by lia. now apply Forall_last_n. }
  rewrite Forall_forall in Hk. now apply Hk.
Qed.

Lemma loop_body_ext (st : LoopState) (w : string) :
  is_word w -> Forall is_word (current_words st) ->
  loop_body self1 st w = loop_body self2 st w.
Proof.
  intros Hw Hcur. unfold loop_body.
  rewrite (overflows_ext st w Hw), (Hcost w Hw).
  destruct (overflows self2 st w) eqn:Ho; [|reflexivity].
  rewrite commit_ext; [reflexivity | assumption |].
  now apply (overflows_nonempty self2 st w).
Qed.

Lemma loop_ext (ws : list string) :
  Forall is_word ws ->
  fold_left (loop_body self1) ws loop_init
  = fold_left (loop_body self2) ws loop_init.
Proof.
  intros Hws.
  enough (G : fold_left (loop_body self2) ws loop_init
              = fold_left (loop_body self1) ws loop_init
              /\ exists done, words_inv self1 done
                   (fold_left (loop_body self1) ws loop_init))
    by (symmetry; exact (proj1 G)).
  apply (fold_left_inv (loop_body self1) is_word
           (fun done st => fold_left (loop_body self2) done loop_init = st
                           /\ exists d, words_inv self1 d st)).
  - intros done st x Hx [He [d Hinv]]. split.
    + rewrite fold_left_app, He. simpl. symmetry.
      apply loop_body_ext; [assumption | exact (proj1 Hinv)].
    + exists (d ++ [x]). now apply words_inv_step.
  - exact Hws.
  - split; [reflexivity | exists []; apply words_inv_init].
Qed.

Lemma chunk_text_ext (txt : string) :
  chunk_text self1 txt = chunk_text self2 txt.
Proof.
  unfold chunk_text.
  destruct (negb (Py.truthy txt) || negb (Py.truthy (Py.strip txt)));
    [reflexivity|].
  rewrite <- (loop_ext _ (split_words txt)).
  pose proof (words_inv_loop self1 txt) as Hinv.
  destruct Hinv as [Hcur _]. unfold finish.
  destruct (current_words _) as [|w0 cur] eqn:Hc; [reflexivity|].
  cbn [Py.nonempty]. rewrite make_chunk_ext; [reflexivity | assumption |].
  discriminate.
Qed.

End CounterExt.

(** ** The test counter and the one-word overlap *)

Section TestCounterFacts.

Lemma split_word_space (w : string) :
  is_word w -> Py.split (w ++ " ")%string = [w].
Proof.
  intros [Ht Hn]. unfold Py.split.
  rewrite (split_from_word w "" " " Hn). simpl. now rewrite Ht.
Qed.

Lemma word_encoding_cost (w : string) :
  is_word w -> List.length (word_encoding (w ++ " ")%string) = 1.
Proof.
  intros Hw. unfold word_encoding.
  now rewrite length_map, split_word_space.
Qed.

Lemma word_encoding_count (ws : list string) :
  Forall is_word ws ->
  List.length (word_encoding (Py.join " " ws)) = List.length ws.
Proof.
  intros Hw. unfold word_encoding. now rewrite length_map, split_join.
Qed.

Lemma strip_overlap_one (prev : list string) (cs : list (list string)) :
  prev <> [] -> Forall (fun ws => ws <> []) cs ->
  strip_overlap 1 prev cs = List.concat (map (@tl string) cs).
Proof.
  revert prev. induction cs as [|b cs IH]; intros prev Hp Hcs; [reflexivity|].
  inversion Hcs; subst. simpl.
  rewrite IH by assumption.
  destruct prev as [|p prev]; [congruence|]. reflexivity.
Qed.

Lemma last_n_one_snoc (pre : list string) (w : string) :
  last_n 1 (pre ++ [w]) = [w].
Proof.
  unfold last_n. rewrite length_app, skipn_app. simpl.
  replace (List.length pre + 1 - 1) with (List.length pre) by lia.
  rewrite skipn_all, Nat.sub_diag. reflexivity.
Qed.

Lemma overlap_linked_one (prev : list string) (cs : list (list string)) :
  prev <> [] -> Forall (fun ws => ws <> []) cs ->
  overlap_linked 1 prev cs -> one_word_carried (prev :: cs).
Proof.
  revert prev. induction cs as [|b cs IH]; intros prev Hp Hcs Hl.
  - simpl. auto.
  - inversion Hcs; subst. destruct Hl as [Hb Hl].
    change (one_word_carried (prev :: b :: cs))
      with ((exists pre w post, prev = pre ++ [w] /\ b = w :: post)
            /\ one_word_carried (b :: cs)).
    split; [|now apply IH].
    destruct (exists_last Hp) as [pre [w Hprev]]. subst prev.
    exists pre, w.
    assert (Hmin : Nat.min 1 (List.length (pre ++ [w])) = 1)
      by (rewrite length_app; cbn [List.length]; lia).
    rewrite Hmin, last_n_one_snoc in Hb.
    destruct b as [|b0 b]; [discriminate|]. simpl in Hb.
    exists b. split; congruence.
Qed.

End TestCounterFacts.

(** * The claims *)

(** C4 (no-split invariant). For every chunker and every text: take the words
    of the chunks in order, remove from each chunk but the first the words it
    repeats from the chunk before it (as many as the commit kept:
    [min (overlap_word_count) (len previous)]), and the words of the text
    come back, in order and whole.  What is removed is indeed the tail of the
    previous chunk, and no chunk is without words. *)
Theorem no_split_invariant (self : Chunkenizer) (txt : string) :
  reassemble (overlap_words self) (map chunk_words (chunk_text self txt))
    = Py.split txt
  /\ overlap_linked (overlap_words self) []
                    (map chunk_words (chunk_text self txt))
  /\ Forall (fun ws => ws <> []) (map chunk_words (chunk_text self txt)).
Proof. exact (chunk_text_words self txt). Qed.

(** C5 (overlap carry-over). When an iteration commits the window, the words
    kept are the last [n] of the window in their order, with
    [n = min (max 1 (overlap_tokens // 4)) (len window)]; the saved chunk is
    the window's; the running estimate restarts at the sum of
    [count (w + " ")] over the kept words; the iteration then appends the
    word and adds its cost. *)
Theorem commit_keeps_overlap_tail (self : Chunkenizer) (st : LoopState)
        (word : string) :
  overflows self st word = true ->
  let cur := current_words st in
  let overlap_count :=
    Z.min (Z.max 1 (overlap_tokens self / 4)) (Z.of_nat (List.length cur)) in
  let kept := last_n (Z.to_nat overlap_count) cur in
  let st' := commit self st in
  List.length kept = Z.to_nat overlap_count
  /\ (exists dropped, cur = dropped ++ kept)
  /\ st_chunks st' = st_chunks st ++ [make_chunk self (st_chunks st) cur]
  /\ current_words st' = kept
  /\ current_tokens st'
     = Py.sum (map (fun w => count_tokens self (w ++ " ")%string) kept)
  /\ loop_body self st word
     = {| st_chunks := st_chunks st';
          current_words := kept ++ [word];
          current_tokens :=
            current_tokens st' + count_tokens self (word ++ " ")%string |}.
Proof.
  intros Hov cur overlap_count kept st'.
  assert (Hn : Z.to_nat overlap_count
               = Nat.min (overlap_words self) (List.length cur)).
  { unfold overlap_count, overlap_words, overlap_word_count. lia. }
  assert (Hk : current_words st' = kept).
  { unfold st', kept. rewrite commit_kept, Hn. reflexivity. }
  repeat split.
  - unfold kept. rewrite length_last_n; lia.
  - exists (firstn (List.length cur - Z.to_nat overlap_count) cur).
    unfold kept, last_n. now rewrite firstn_skipn.
  - exact Hk.
  - rewrite <- Hk. reflexivity.
  - unfold loop_body. rewrite Hov. fold st'. rewrite Hk. reflexivity.
Qed.

Lemma commit_keeps_overlap_tail_witness :
  overflows (test_chunker 2 0) full_window "gamma" = true
  /\ current_words (commit (test_chunker 2 0) full_window) = ["beta"]
  /\ current_tokens (commit (test_chunker 2 0) full_window) = 1
  /\ current_words (loop_body (test_chunker 2 0) full_window "gamma")
     = ["beta"; "gamma"].
Proof.
  destruct (commit_keeps_overlap_tail (test_chunker 2 0) full_window "gamma"
              eq_refl) as (_ & _ & _ & Hk & Ht & Hb).
  split; [reflexivity|]. split; [exact Hk|]. split; [exact Ht|].
  rewrite Hb. reflexivity.
Defined.

(** C6 (exact recount). Every chunk of [chunk_text] carries, as
    [token_count], the tokenizer's count of the chunk's own text. *)
Theorem token_count_is_exact (self : Chunkenizer) (txt : string) :
  Forall (fun c => token_count c = count_tokens self (text c))
         (chunk_text self txt).
Proof.
  unfold chunk_text.
  destruct (negb (Py.truthy txt) || negb (Py.truthy (Py.strip txt)));
    [constructor|].
  unfold finish.
  pose proof (exact_loop self (Py.split txt)) as H.
  destruct (Py.nonempty _); [|exact H].
  apply Forall_app; split; [exact H|].
  constructor; [apply exact_count_make | constructor].
Qed.

(** The recount matters: under the per-character counter the running
    estimate stands at 11 when "alpha beta" is saved, and the chunk reports
    the 10 tokens of its text. *)
Example estimate_is_not_reported :
  current_tokens
    (fold_left (loop_body (mkChunkenizer 12 0 "gpt-4" char_encoding))
               ["alpha"; "beta"] loop_init) = 11
  /\ map token_count
         (chunk_text (mkChunkenizer 12 0 "gpt-4" char_encoding) five_words)
     = [10; 10; 11; 13].
Proof. split; reflexivity. Qed.

(** C8 (empty input). A text that is empty or made of whitespace only gives
    no chunk, and [process_text] on it gives a result with [total_chunks = 0]
    and no chunk. *)
Theorem blank_text_no_chunks (self : Chunkenizer) (txt src : string) :
  all_space txt = true ->
  chunk_text self txt = []
  /\ total_chunks (process_text self txt src) = 0
  /\ chunks (process_text self txt src) = [].
Proof.
  intros H.
  assert (E : chunk_text self txt = []).
  { unfold chunk_text. rewrite (strip_all_space txt H).
    now rewrite orb_true_r. }
  unfold process_text, assemble. simpl. rewrite E. auto.
Qed.

Lemma blank_text_no_chunks_witness :
  all_space "   " = true
  /\ chunk_text (test_chunker 2 0) "   " = []
  /\ total_chunks (process_text (test_chunker 2 0) "   " "text") = 0
  /\ chunks (process_text (test_chunker 2 0) "   " "text") = [].
Proof.
  split; [reflexivity|].
  apply (blank_text_no_chunks (test_chunker 2 0) "   " "text"). reflexivity.
Defined.

(** C10 (at most one chunk per word). With [max_tokens > 0], [chunk_text]
    returns at most as many chunks as the text has words: the first word
    commits nothing, every word commits at most one chunk, and the code after
    the loop adds one chunk exactly when the window holds words. *)
Theorem chunks_at_most_words (self : Chunkenizer) (txt : string) :
  (0 < max_tokens self)%Z ->
  List.length (chunk_text self txt) <= List.length (Py.split txt)
  /\ (forall w, overflows self loop_init w = false)
  /\ (forall st w,
        List.length (st_chunks (loop_body self st w))
        <= List.length (st_chunks st) + 1)
  /\ (forall st,
        List.length (finish self st)
        = List.length (st_chunks st)
          + (if Py.nonempty (current_words st) then 1 else 0)).
Proof.
  intros _. repeat split.
  - apply chunk_text_length.
  - apply first_word_no_commit.
  - intros st w. rewrite step_chunks_length.
    destruct (overflows self st w); lia.
  - apply finish_length.
Qed.

Lemma chunks_at_most_words_witness :
  List.length (chunk_text (test_chunker 2 0) five_words)
  <= List.length (Py.split five_words).
Proof.
  exact (proj1 (chunks_at_most_words (test_chunker 2 0) five_words eq_refl)).
Defined.

(** C1, as stated, fails. With [overlap_tokens = 0] and [max_tokens = 2],
    on five different words, the commit still keeps [max(1, 0 // 4) = 1]
    word: "beta" closes chunk 0 and opens chunk 1, and so on down the list. *)
Lemma overlap_zero_duplicates_a_word :
  overlap_tokens (test_chunker 2 0) = 0%Z
  /\ (0 < max_tokens (test_chunker 2 0))%Z
  /\ NoDup (Py.split five_words)
  /\ map chunk_words (chunk_text (test_chunker 2 0) five_words)
     = [["alpha"; "beta"]; ["beta"; "gamma"];
        ["gamma"; "delta"]; ["delta"; "epsilon"]]
  /\ consecutive_disjoint
       (map chunk_words (chunk_text (test_chunker 2 0) five_words)) = false.
Proof.
  split; [reflexivity|]. split; [reflexivity|].
  split; [|split; reflexivity].
  change (Py.split five_words)
    with ["alpha"; "beta"; "gamma"; "delta"; "epsilon"].
  repeat constructor; simpl; intuition discriminate.
Qed.

(** C1, amended. With [overlap_tokens = 0] the commit keeps exactly one word:
    every chunk ends with the word the next chunk starts with, and that word
    is the whole duplication: the first chunk followed by every later chunk
    without its first word is the word sequence of the text. *)
Theorem overlap_zero_carries_one_word (self : Chunkenizer) (txt : string) :
  overlap_tokens self = 0%Z ->
  one_word_carried (map chunk_words (chunk_text self txt))
  /\ drop_carried_word (map chunk_words (chunk_text self txt)) = Py.split txt.
Proof.
  intros Hz.
  assert (Hk : overlap_words self = 1).
  { unfold overlap_words, overlap_word_count. rewrite Hz. reflexivity. }
  destruct (chunk_text_words self txt) as (Hre & Hl & Hne).
  rewrite Hk in Hre, Hl.
  destruct (map chunk_words (chunk_text self txt)) as [|a rest].
  - split; [exact I | exact Hre].
  - inversion Hne; subst. destruct Hl as [_ Hl]. split.
    + now apply overlap_linked_one.
    + rewrite <- Hre. unfold reassemble, drop_carried_word. simpl.
      now rewrite strip_overlap_one.
Qed.

Lemma overlap_zero_carries_one_word_witness :
  one_word_carried (map chunk_words (chunk_text (test_chunker 2 0) five_words))
  /\ drop_carried_word
       (map chunk_words (chunk_text (test_chunker 2 0) five_words))
     = Py.split five_words.
Proof.
  apply (overlap_zero_carries_one_word (test_chunker 2 0) five_words).
  reflexivity.
Defined.

(** C2, as stated, fails. Under the one-token-per-word counter the five
    words with [max_tokens = 2], [overlap_tokens = 0] do not give the three
    chunks of the scenario, nor its totals. *)
Lemma five_words_not_three_chunks :
  map text (chunk_text (test_chunker 2 0) five_words)
    <> ["alpha beta"; "gamma delta"; "epsilon"]
  /\ total_chunks (process_text (test_chunker 2 0) five_words "text") <> 3
  /\ total_tokens (process_text (test_chunker 2 0) five_words "text") <> 5.
Proof. repeat split; vm_compute; discriminate. Qed.

(** C2, amended. Under any counter that gives one token to a word with its
    trailing space and counts a joined text as its number of words, the five
    words with [max_tokens = 2], [overlap_tokens = 0] give four chunks, each
    after the first opening with the word kept from the one before; their
    indices are 0..3, and the totals are 4 chunks and 8 tokens. *)
Theorem five_words_four_chunks (enc : Encoding) (m : string) :
  (forall w, is_word w -> List.length (enc (w ++ " ")%string) = 1) ->
  (forall ws, Forall is_word ws -> ws <> [] ->
     List.length (enc (Py.join " " ws)) = List.length ws) ->
  chunk_text (mkChunkenizer 2 0 m enc) five_words
  = [ mkChunk 0 "alpha beta" 2 10; mkChunk 1 "beta gamma" 2 10;
      mkChunk 2 "gamma delta" 2 11; mkChunk 3 "delta epsilon" 2 13 ]
  /\ total_chunks (process_text (mkChunkenizer 2 0 m enc) five_words "text") = 4
  /\ total_tokens (process_text (mkChunkenizer 2 0 m enc) five_words "text") = 8.
Proof.
  intros Hcost Hcount.
  assert (E : chunk_text (mkChunkenizer 2 0 m enc) five_words
              = chunk_text (test_chunker 2 0) five_words).
  { apply chunk_text_ext; try reflexivity.
    - intros w Hw. unfold word_cost. simpl.
      now rewrite Hcost, word_encoding_cost.
    - intros ws Hws Hne. unfold count_tokens. simpl.
      now rewrite Hcount, word_encoding_count. }
  split; [rewrite E; vm_compute; reflexivity|].
  unfold process_text, assemble. cbn [total_chunks total_tokens].
  rewrite E. split; vm_compute; reflexivity.
Qed.

Lemma five_words_four_chunks_witness :
  map text (chunk_text (mkChunkenizer 2 0 "gpt-4" word_encoding) five_words)
  = ["alpha beta"; "beta gamma"; "gamma delta"; "delta epsilon"].
Proof.
  destruct (five_words_four_chunks word_encoding "gpt-4") as (E & _ & _).
  - exact word_encoding_cost.
  - intros ws Hws _. now apply word_encoding_count.
  - rewrite E. reflexivity.
Defined.

(** C3, as stated, fails. The constructor accepts [max_tokens = 0] and a
    negative [overlap_tokens] when the model is known, and the chunker it
    returns chunks text. *)
Lemma invalid_configuration_is_accepted :
  init test_encoding_for_model 0 (-5) "gpt-4"
    = Ok (mkChunkenizer 0 (-5) "gpt-4" word_encoding)
  /\ map text (chunk_text (mkChunkenizer 0 (-5) "gpt-4" word_encoding)
                          "alpha beta")
     = ["alpha"; "alpha beta"].
Proof. split; reflexivity. Qed.

(** C3, amended. The constructor makes no check on [max_tokens] or
    [overlap_tokens]: whatever the two integers, it succeeds when the
    tokenizer library knows the model, and stores them unchanged; the only
    failure at construction is the library's, on an unknown model. *)
Theorem construction_does_not_validate
        (encoding_for_model : string -> option Encoding)
        (mt ov : Z) (m : string) (enc : Encoding) :
  encoding_for_model m = Some enc ->
  init encoding_for_model mt ov m = Ok (mkChunkenizer mt ov m enc)
  /\ (forall mt' ov' e,
        init encoding_for_model mt' ov' m <> Raise e).
Proof.
  intros H. unfold init. rewrite H. split; [reflexivity | discriminate].
Qed.

Lemma construction_does_not_validate_witness :
  init test_encoding_for_model (-1) (-1) "gpt-4"
  = Ok (mkChunkenizer (-1) (-1) "gpt-4" word_encoding).
Proof.
  apply (construction_does_not_validate test_encoding_for_model (-1) (-1)
           "gpt-4" word_encoding).
  reflexivity.
Defined.

(** C7 (aggregate consistency). Every result that [process] returns, and
    every result of [process_text], has [total_chunks = len(chunks)],
    [total_tokens] the sum of the chunks' [token_count] and [total_chars]
    the sum of their [char_count]. *)
Theorem aggregates_consistent (W : World) (self : Chunkenizer)
        (file_path txt source_name : string) :
  (forall log r, process W self file_path = (log, Ok r) -> aggregates_ok r)
  /\ aggregates_ok (process_text self txt source_name).
Proof.
  split; [|repeat split].
  intros log r. unfold process.
  destruct (negb (path_exists W file_path)); [discriminate|].
  destruct (negb (Py.mem _ _)); [discriminate|].
  destruct (extract_text W file_path) as [l [t | e]]; simpl; [|discriminate].
  intros H. inversion H; subst. repeat split.
Qed.

Lemma aggregates_consistent_witness :
  aggregates_ok
    (assemble (test_chunker 2 0) "report.PDF"
              (chunk_text (test_chunker 2 0) five_words)).
Proof.
  apply (proj1 (aggregates_consistent Demo.world (test_chunker 2 0)
                  "docs/report.PDF" "" ""))
    with (log := [Extracted extract_pdf "docs/report.PDF"]).
  reflexivity.
Defined.

(** C9 (unsupported format). For a file that exists and whose lowercased
    suffix is none of .pdf, .docx, .xlsx, .xls, .csv, .pptx, [process] raises
    its [ValueError] with no extraction call made; and whenever [process]
    does call an extraction function, it is on its own argument, the suffix
    is one of the six, and the function is the one registered for it. *)
Theorem unsupported_format_before_extraction (W : World) (self : Chunkenizer)
        (file_path : string) :
  (path_exists W file_path = true ->
   Py.mem (Py.lower (path_suffix W file_path)) recognized_extensions = false ->
   exists listing,
     process W self file_path
     = ([], Raise (ValueError ("Unsupported format: "
                               ++ Py.lower (path_suffix W file_path)
                               ++ ". Supported: " ++ listing)%string)))
  /\ (forall ex p,
        In (Extracted ex p) (fst (process W self file_path)) ->
        p = file_path
        /\ Py.mem (Py.lower (path_suffix W file_path)) recognized_extensions
           = true
        /\ dict_get (Py.lower (path_suffix W file_path)) EXTRACTORS = Some ex).
Proof.
  change recognized_extensions with (dict_keys EXTRACTORS).
  unfold process, SUPPORTED_EXTENSIONS, get_supported_extensions. split.
  - intros He Hm. rewrite He, Hm. cbn [negb]. eexists. reflexivity.
  - intros ex p.
    destruct (negb (path_exists W file_path)); [intros []|].
    destruct (Py.mem _ (dict_keys EXTRACTORS)) eqn:Hm; [|intros []].
    unfold extract_text. rewrite Hm. cbn [negb].
    destruct (dict_get _ EXTRACTORS) as [ex'|] eqn:Hg; [|intros []].
    unfold call_extractor, bind.
    destruct (run_extractor W ex' file_path) as [t | e]; simpl;
      intros [H | []]; inversion H; subst; auto.
Qed.

Lemma unsupported_format_before_extraction_witness :
  exists listing,
    process Demo.world (test_chunker 2 0) "docs/notes.txt"
    = ([], Raise (ValueError ("Unsupported format: .txt. Supported: "
                              ++ listing)%string)).
Proof.
  apply (proj1 (unsupported_format_before_extraction
                  Demo.world (test_chunker 2 0) "docs/notes.txt"));
    reflexivity.
Defined.

(** * Further properties of the code *)

(** ** [chunk_text]: shape of the result *)

Section MoreStringFacts.

Lemma truthy_snoc (acc : string) (c : ascii) :
  Py.truthy (acc ++ String c "")%string = true.
Proof. destruct acc; reflexivity. Qed.

Lemma split_from_nil (s acc : string) :
  Py.split_from acc s = [] -> Py.truthy acc = false /\ all_space s = true.
Proof.
  revert acc. induction s as [|c s IH]; intros acc H; simpl in *.
  - destruct (Py.truthy acc); [discriminate | auto].
  - destruct (Py.isspace c) eqn:Hc.
    + destruct (Py.truthy acc); [discriminate|].
      destruct (IH _ H) as [_ Hs]. auto.
    + destruct (IH _ H) as [Ht _]. now rewrite truthy_snoc in Ht.
Qed.

Lemma split_nil_all_space (s : string) :
  Py.split s = [] -> all_space s = true.
Proof. intros H. now destruct (split_from_nil s "" H). Qed.

Lemma join_words_truthy (ws : list string) :
  ws <> [] -> Forall is_word ws -> Py.truthy (Py.join " " ws) = true.
Proof.
  intros Hne Hw. destruct ws as [|w ws]; [congruence|].
  inversion Hw as [|? ? [Ht _] _]; subst.
  destruct ws; simpl; [exact Ht | now apply truthy_append_l].
Qed.

(** Whitespace between two texts separates their words. *)
Lemma split_from_sep (s t acc : string) (c : ascii) :
  Py.isspace c = true ->
  Py.split_from acc (s ++ String c t)%string
  = Py.split_from acc s ++ Py.split t.
Proof.
  intros Hc. revert acc. induction s as [|x s IH]; intros acc; simpl.
  - rewrite Hc. destruct (Py.truthy acc); reflexivity.
  - destruct (Py.isspace x).
    + destruct (Py.truthy acc); simpl; now rewrite IH.
    + apply IH.
Qed.

Lemma split_sep (s t : string) (c : ascii) :
  Py.isspace c = true ->
  Py.split (s ++ String c t)%string = Py.split s ++ Py.split t.
Proof. intros Hc. now apply split_from_sep. Qed.

End MoreStringFacts.

Section ShapeFacts.

Variable self : Chunkenizer.

(** The guard of [chunk_text] only saves work: the loop on no word gives
    no chunk. *)
Lemma chunk_text_loop (txt : string) :
  chunk_text self txt
  = finish self (fold_left (loop_body self) (Py.split txt) loop_init).
Proof.
  unfold chunk_text.
  destruct (negb (Py.truthy txt) || negb (Py.truthy (Py.strip txt))) eqn:Hg;
    [|reflexivity].
  assert (E : Py.split txt = []).
  { apply orb_true_iff in Hg as [Hg | Hg]; apply negb_true_iff in Hg.
    - now apply falsy_split.
    - now apply strip_falsy_split. }
  rewrite E. reflexivity.
Qed.

Lemma index_step (st : LoopState) (w : string) :
  map index (st_chunks st) = seq 0 (List.length (st_chunks st)) ->
  map index (st_chunks (loop_body self st w))
  = seq 0 (List.length (st_chunks (loop_body self st w))).
Proof.
  intros H. unfold loop_body. destruct (overflows self st w); simpl; [|exact H].
  rewrite map_app, length_app, H. simpl.
  rewrite Nat.add_1_r, seq_S. reflexivity.
Qed.

Lemma index_loop (ws : list string) :
  map index (st_chunks (fold_left (loop_body self) ws loop_init))
  = seq 0 (List.length (st_chunks (fold_left (loop_body self) ws loop_init))).
Proof.
  apply (fold_left_inv (loop_body self) (fun _ => True)
           (fun _ st => map index (st_chunks st)
                        = seq 0 (List.length (st_chunks st)))).
  - intros done st x _ H. now apply index_step.
  - apply Forall_trivial.
  - reflexivity.
Qed.

Lemma chunk_shape_make (done : list Chunk) (ws : list string) :
  ws <> [] -> Forall is_word ws -> chunk_shape (make_chunk self done ws).
Proof. intros Hne Hw. split; [exists ws; auto | reflexivity]. Qed.

Lemma shape_loop (ws : list string) :
  Forall is_word ws ->
  Forall is_word (current_words (fold_left (loop_body self) ws loop_init))
  /\ Forall chunk_shape (st_chunks (fold_left (loop_body self) ws loop_init)).
Proof.
  intros Hws.
  apply (fold_left_inv (loop_body self) is_word
           (fun _ st => Forall is_word (current_words st)
                        /\ Forall chunk_shape (st_chunks st))).
  - intros done st x Hx [Hc Hs]. unfold loop_body.
    destruct (overflows self st x) eqn:Ho; cbn [st_chunks current_words].
    + rewrite commit_kept, commit_chunks. split.
      * apply Forall_app; split; [now apply Forall_last_n|].
        constructor; [exact Hx | constructor].
      * apply Forall_app; split; [exact Hs|].
        constructor; [|constructor].
        apply chunk_shape_make; [now apply (overflows_nonempty self st x) | exact Hc].
    + split; [|exact Hs].
      apply Forall_app; split; [exact Hc|].
      constructor; [exact Hx | constructor].
  - exact Hws.
  - split; constructor.
Qed.

Lemma chunk_text_shape (txt : string) :
  Forall chunk_shape (chunk_text self txt).
Proof.
  rewrite chunk_text_loop. unfold finish.
  destruct (shape_loop (Py.split txt) (split_words txt)) as [Hc Hs].
  destruct (current_words _) as [|w0 cur] eqn:E; cbn [Py.nonempty]; [exact Hs|].
  apply Forall_app; split; [exact Hs|].
  constructor; [|constructor].
  apply chunk_shape_make; [discriminate | exact Hc].
Qed.

End ShapeFacts.

(** X1. The chunks of one run are numbered 0, 1, 2, ... in the order of the
    list, with no gap. *)
Theorem chunk_indices_contiguous (self : Chunkenizer) (txt : string) :
  map index (chunk_text self txt)
  = seq 0 (List.length (chunk_text self txt)).
Proof.
  rewrite chunk_text_loop. unfold finish.
  pose proof (index_loop self (Py.split txt)) as H.
  destruct (Py.nonempty _); [|exact H].
  rewrite map_app, length_app, H. simpl.
  rewrite Nat.add_1_r, seq_S. reflexivity.
Qed.

(** X2. No chunk is empty and every chunk text is in normal form: it has at
    least one word, its words are separated by single spaces with nothing
    before or after (joining its words again gives the text back), and
    [char_count] is the length of the text, hence positive. *)
Theorem chunk_text_normal_form (self : Chunkenizer) (txt : string) :
  Forall (fun c =>
            text c <> ""
            /\ chunk_words c <> []
            /\ Py.join " " (chunk_words c) = text c
            /\ char_count c = String.length (text c)
            /\ 0 < char_count c)
         (chunk_text self txt).
Proof.
  eapply Forall_impl; [|apply chunk_text_shape].
  intros c [(ws & Hne & Hw & Ht) Hc]. unfold chunk_words.
  rewrite Ht, (split_join ws Hw).
  pose proof (join_words_truthy ws Hne Hw) as Hj.
  rewrite Ht in Hc.
  split; [intros E; now rewrite E in Hj|].
  split; [exact Hne|]. split; [reflexivity|]. split; [exact Hc|].
  rewrite Hc. destruct (Py.join " " ws); [discriminate | simpl; lia].
Qed.



(** X4. Only the words of the text matter: two texts with the same words
    give the same chunks, whatever whitespace separates or surrounds the
    words; so a text and its single-space normal form chunk alike. *)
Theorem chunk_text_whitespace_insensitive (self : Chunkenizer)
        (txt txt' : string) :
  Py.split txt = Py.split txt' ->
  chunk_text self txt = chunk_text self txt'.
Proof. intros H. now rewrite !chunk_text_loop, H. Qed.

Lemma chunk_text_whitespace_insensitive_witness :
  chunk_text (test_chunker 2 0) "  alpha   beta gamma "
  = chunk_text (test_chunker 2 0) "alpha beta gamma".
Proof.
  apply (chunk_text_whitespace_insensitive (test_chunker 2 0)). reflexivity.
Defined.

(** In particular, chunking the single-space join of a text's words is
    chunking the text. *)
Corollary chunk_text_of_normalised (self : Chunkenizer) (txt : string) :
  chunk_text self (Py.join " " (Py.split txt)) = chunk_text self txt.
Proof.
  rewrite !chunk_text_loop. now rewrite (split_join _ (split_words txt)).
Qed.

(** ** [chunk_text]: the budget *)

Section BudgetFacts.

Variable self : Chunkenizer.

Lemma sum_app (xs ys : list nat) : Py.sum (xs ++ ys) = Py.sum xs + Py.sum ys.
Proof.
  induction xs as [|x xs IH]; simpl; [reflexivity | rewrite IH; lia].
Qed.

Lemma window_cost_snoc (ws : list string) (w : string) :
  window_cost self (ws ++ [w]) = window_cost self ws + word_cost self w.
Proof. unfold window_cost. rewrite map_app, sum_app. simpl. lia. Qed.

(** While the words read so far fit the budget together, nothing is saved
    and the window holds them all. *)
Lemma fitting_loop (ws : list string) :
  (Z.of_nat (window_cost self ws) <= max_tokens self)%Z ->
  fold_left (loop_body self) ws loop_init
  = {| st_chunks := []; current_words := ws;
       current_tokens := window_cost self ws |}.
Proof.
  apply (fold_left_inv (loop_body self) (fun _ => True)
           (fun done st =>
              (Z.of_nat (window_cost self done) <= max_tokens self)%Z ->
              st = {| st_chunks := []; current_words := done;
                      current_tokens := window_cost self done |})).
  - intros done st x _ IH Hfit. rewrite window_cost_snoc in Hfit.
    rewrite IH by lia. unfold loop_body, overflows. simpl.
    replace (Z.of_nat (window_cost self done + word_cost self x)
             >? max_tokens self)%Z with false
      by (symmetry; rewrite Z.gtb_ltb; apply Z.ltb_ge; lia).
    simpl. now rewrite window_cost_snoc.
  - apply Forall_trivial.
  - reflexivity.
Qed.

Lemma chunk_chain_snoc (R : list string -> list string -> Prop)
      (cs : list (list string)) (prev c : list string) :
  chunk_chain R prev cs -> R (last cs prev) c -> chunk_chain R prev (cs ++ [c]).
Proof.
  revert prev. induction cs as [|ws cs IH]; intros prev Hc Hr; simpl in *.
  - auto.
  - destruct Hc as [Hw Hc]. split; [exact Hw|].
    apply IH; [exact Hc|]. destruct cs as [|ws' cs]; [exact Hr|].
    now rewrite (last_cons_default ws' cs ws prev).
Qed.

Lemma chunk_chain_impl (R R' : list string -> list string -> Prop)
      (cs : list (list string)) (prev : list string) :
  (forall p ws, R p ws -> R' p ws) ->
  chunk_chain R prev cs -> chunk_chain R' prev cs.
Proof.
  intros Himp. revert prev.
  induction cs as [|ws cs IH]; intros prev H; simpl in *; [exact I|].
  destruct H as [Hr Hc]. split; [now apply Himp | now apply IH].
Qed.

Lemma budget_inv_init : budget_inv self loop_init.
Proof.
  unfold budget_inv. simpl. repeat split. left. split; reflexivity.
Qed.

Lemma budget_inv_step (done : list string) (st : LoopState) (w : string) :
  is_word w -> words_inv self done st -> budget_inv self st ->
  budget_inv self (loop_body self st w).
Proof.
  intros Hw (Hcur & _) (Htok & Hchain & Hlast).
  unfold loop_body. destruct (overflows self st w) eqn:Hov.
  - (* commit: the new window is the kept words and [w] *)
    pose proof (overflows_nonempty _ _ _ Hov) as Hcne.
    unfold budget_inv. cbn [st_chunks current_words current_tokens].
    rewrite commit_chunks, map_app. cbn [map].
    rewrite (chunk_words_make _ _ _ Hcur), last_last, commit_kept.
    assert (Hlen : List.length
                     (last_n (Nat.min (overlap_words self)
                                      (List.length (current_words st)))
                             (current_words st) ++ [w])
                   = carried_from self (current_words st) + 1).
    { rewrite length_app, length_last_n by lia. reflexivity. }
    split; [|split].
    + rewrite window_cost_snoc. f_equal.
      unfold commit. cbn [current_tokens]. unfold window_cost.
      now rewrite <- commit_kept.
    + apply chunk_chain_snoc; [exact Hchain|].
      destruct Hlast as [[Hnil _] | Hr]; [congruence | exact Hr].
    + right. split; [unfold advances; lia | right; exact Hlen].
  - (* no commit: the window grows by [w] *)
    unfold budget_inv. cbn [st_chunks current_words current_tokens].
    split; [|split].
    + now rewrite window_cost_snoc, Htok.
    + exact Hchain.
    + right. destruct Hlast as [[Hnil Hc] | [Ha Hb]].
      * rewrite Hnil, Hc. simpl. split; [unfold advances, carried_from|right];
          simpl; rewrite ?Nat.min_0_r; unfold carried_from; simpl;
          rewrite ?Nat.min_0_r; lia.
      * split; [unfold advances in *; rewrite length_app; simpl; lia|].
        left. rewrite window_cost_snoc, <- Htok.
        unfold overflows in Hov. apply andb_false_iff in Hov as [Hov | Hov].
        -- rewrite Z.gtb_ltb in Hov. apply Z.ltb_ge in Hov. exact Hov.
        -- unfold advances in Ha. destruct (current_words st);
             [simpl in Ha; lia | discriminate].
Qed.

Lemma budget_inv_loop (txt : string) :
  budget_inv self (fold_left (loop_body self) (Py.split txt) loop_init).
Proof.
  enough (G : words_inv self (Py.split txt)
                (fold_left (loop_body self) (Py.split txt) loop_init)
              /\ budget_inv self
                   (fold_left (loop_body self) (Py.split txt) loop_init))
    by exact (proj2 G).
  apply (fold_left_inv (loop_body self) is_word
           (fun done st => words_inv self done st /\ budget_inv self st)).
  - intros done st x Hx [Hwi Hbi]. split.
    + now apply words_inv_step.
    + now apply (budget_inv_step done).
  - apply split_words.
  - split; [apply words_inv_init | apply budget_inv_init].
Qed.

Lemma chunk_text_chain (txt : string) :
  chunk_chain (fun prev ws => advances self prev ws /\ budgeted self prev ws)
              [] (map chunk_words (chunk_text self txt)).
Proof.
  rewrite chunk_text_loop. unfold finish.
  destruct (budget_inv_loop txt) as (_ & Hchain & Hlast).
  destruct (words_inv_loop self txt) as (Hcur & _).
  destruct (current_words _) as [|w0 cur] eqn:E; cbn [Py.nonempty];
    [exact Hchain|].
  rewrite map_app. cbn [map]. rewrite (chunk_words_make _ _ _ Hcur).
  apply chunk_chain_snoc; [exact Hchain|].
  destruct Hlast as [[Hnil _] | Hr]; [discriminate | exact Hr].
Qed.

End BudgetFacts.

(** X5. When the words of the text fit the budget together (the sum of
    [count (w + " ")] over them is at most [max_tokens]) and the text is not
    blank, the result is one chunk, of index 0, whose text is the words
    joined by single spaces. *)
Theorem fitting_text_single_chunk (self : Chunkenizer) (txt : string) :
  (Z.of_nat (window_cost self (Py.split txt)) <= max_tokens self)%Z ->
  all_space txt = false ->
  chunk_text self txt = [make_chunk self [] (Py.split txt)].
Proof.
  intros Hfit Hb. rewrite chunk_text_loop, (fitting_loop self _ Hfit).
  unfold finish. cbn [current_words st_chunks].
  destruct (Py.split txt) eqn:E; [|reflexivity].
  apply split_nil_all_space in E. congruence.
Qed.

Lemma fitting_text_single_chunk_witness :
  map text (chunk_text (test_chunker 100 0) (" " ++ five_words ++ "  "))
  = ["alpha beta gamma delta epsilon"].
Proof.
  rewrite (fitting_text_single_chunk (test_chunker 100 0)
             (" " ++ five_words ++ "  ")).
  - reflexivity.
  - vm_compute. discriminate.
  - reflexivity.
Defined.

(** X6. The budget is kept up to the overlap: for every chunk, the estimate
    of its words (the sum of [count (w + " ")]) is at most [max_tokens], or
    the chunk consists of the words taken over from the previous chunk and
    exactly one more word (for the first chunk: of one word). *)
Theorem chunks_within_budget (self : Chunkenizer) (txt : string) :
  chunk_chain (budgeted self) [] (map chunk_words (chunk_text self txt)).
Proof.
  eapply chunk_chain_impl; [|apply chunk_text_chain].
  intros p ws [_ H]. exact H.
Qed.

(** X7. Every chunk moves forward: it has more words than it took over from
    the chunk before it, so each chunk holds at least one word read after
    the previous chunk was saved. *)
Theorem chunks_advance (self : Chunkenizer) (txt : string) :
  chunk_chain (advances self) [] (map chunk_words (chunk_text self txt)).
Proof.
  eapply chunk_chain_impl; [|apply chunk_text_chain].
  intros p ws [H _]. exact H.
Qed.

(** X8. When the text has no more words than a commit keeps
    ([max(1, overlap_tokens // 4)]), no commit ever drops a word: every chunk
    is a prefix of the text's words, and the last chunk holds them all. *)
Theorem large_overlap_chunks_are_prefixes (self : Chunkenizer) (txt : string) :
  (Z.of_nat (List.length (Py.split txt))
   <= Z.max 1 (overlap_tokens self / 4))%Z ->
  Forall (fun c => exists rest, Py.split txt = chunk_words c ++ rest)
         (chunk_text self txt)
  /\ last (map chunk_words (chunk_text self txt)) [] = Py.split txt.
Proof.
  intros Hk.
  assert (Hk' : List.length (Py.split txt) <= overlap_words self).
  { unfold overlap_words, overlap_word_count. lia. }
  clear Hk. rewrite chunk_text_loop.
  assert (G : Forall is_word (Py.split txt)
              /\ (List.length (Py.split txt) <= overlap_words self ->
                  current_words
                    (fold_left (loop_body self) (Py.split txt) loop_init)
                  = Py.split txt
                  /\ Forall (fun c => exists rest,
                                 Py.split txt = chunk_words c ++ rest)
                       (st_chunks (fold_left (loop_body self) (Py.split txt)
                                             loop_init)))).
  { apply (fold_left_inv (loop_body self) is_word
             (fun done st =>
                Forall is_word done
                /\ (List.length done <= overlap_words self ->
                    current_words st = done
                    /\ Forall (fun c => exists rest,
                                   done = chunk_words c ++ rest)
                              (st_chunks st)))).
    - intros done st x Hx [Hd IH]. split.
      { apply Forall_app; split; [exact Hd | constructor; [exact Hx | constructor]]. }
      rewrite length_app. simpl. intros Hlen.
      destruct IH as [Hc Hp]; [lia|].
      assert (Hp' : Forall (fun c => exists rest,
                              done ++ [x] = chunk_words c ++ rest)
                           (st_chunks st)).
      { eapply Forall_impl; [|exact Hp]. intros c [rest E].
        exists (rest ++ [x]). now rewrite app_assoc, <- E. }
      unfold loop_body. destruct (overflows self st x);
        cbn [st_chunks current_words].
      + rewrite commit_kept, commit_chunks, Hc. split.
        * unfold last_n.
          replace (List.length done
                   - Nat.min (overlap_words self) (List.length done))
            with 0 by lia.
          reflexivity.
        * apply Forall_app; split; [exact Hp'|].
          constructor; [|constructor]. exists [x].
          now rewrite (chunk_words_make self _ done Hd).
      + rewrite Hc. split; [reflexivity | exact Hp'].
    - apply split_words.
    - split; [constructor | intros _; split; [reflexivity | constructor]]. }
  destruct G as [Hw G]. destruct (G Hk') as [Hc Hp]. unfold finish.
  rewrite Hc. destruct (Py.split txt) as [|w0 ws] eqn:E; cbn [Py.nonempty].
  - simpl. split; [constructor | reflexivity].
  - rewrite map_app. cbn [map]. rewrite last_last.
    rewrite (chunk_words_make self _ _ Hw). split; [|reflexivity].
    apply Forall_app; split; [exact Hp|].
    constructor; [|constructor]. exists [].
    now rewrite (chunk_words_make self _ _ Hw), app_nil_r.
Qed.

Lemma large_overlap_chunks_are_prefixes_witness :
  map text (chunk_text (test_chunker 2 40) five_words)
  = ["alpha beta"; "alpha beta gamma"; "alpha beta gamma delta";
     "alpha beta gamma delta epsilon"]
  /\ last (map chunk_words (chunk_text (test_chunker 2 40) five_words)) []
     = Py.split five_words.
Proof.
  split; [reflexivity|].
  apply (large_overlap_chunks_are_prefixes (test_chunker 2 40) five_words).
  vm_compute. discriminate.
Defined.

(** ** [extract_text] and [process]: outcomes *)

Section DispatchFacts.

Lemma dict_get_mem {V : Type} (k : string) (d : list (string * V)) :
  Py.mem k (dict_keys d) = true <-> exists v, dict_get k d = Some v.
Proof.
  unfold Py.mem, dict_keys. induction d as [|[k' v'] d IH]; simpl.
  - split; [discriminate | intros [v H]; discriminate].
  - destruct (String.eqb k k'); simpl; [|exact IH].
    split; [intros _; now exists v' | reflexivity].
Qed.

Lemma dict_get_not_mem {V : Type} (k : string) (d : list (string * V)) :
  Py.mem k (dict_keys d) = false <-> dict_get k d = None.
Proof.
  pose proof (dict_get_mem k d) as H.
  destruct (Py.mem k (dict_keys d)), (dict_get k d) as [v|].
  - split; discriminate.
  - destruct (proj1 H eq_refl) as [v E]. discriminate.
  - assert (E : false = true) by (apply H; now exists v). discriminate.
  - split; reflexivity.
Qed.

Variable W : World.

Lemma extract_text_cases (file_path : string) :
  extract_text W file_path
  = match dict_get (Py.lower (path_suffix W file_path)) EXTRACTORS with
    | Some ex => ([Extracted ex file_path], run_extractor W ex file_path)
    | None =>
        ([], Raise (ValueError
                      ("Unsupported format: "
                       ++ Py.lower (path_suffix W file_path))%string))
    end.
Proof.
  unfold extract_text.
  destruct (dict_get _ EXTRACTORS) as [ex|] eqn:Hg.
  - replace (Py.mem _ (dict_keys EXTRACTORS)) with true; [reflexivity|].
    symmetry. apply dict_get_mem. now exists ex.
  - apply dict_get_not_mem in Hg. now rewrite Hg.
Qed.

Variable self : Chunkenizer.

Lemma process_cases (file_path : string) :
  process W self file_path
  = if path_exists W file_path
    then match dict_get (Py.lower (path_suffix W file_path)) EXTRACTORS with
         | Some ex =>
             match run_extractor W ex file_path with
             | Ok txt =>
                 ([Extracted ex file_path],
                  Ok (assemble self (path_name W file_path)
                               (chunk_text self txt)))
             | Raise e => ([Extracted ex file_path], Raise e)
             end
         | None =>
             ([], Raise (ValueError
                           ("Unsupported format: "
                            ++ Py.lower (path_suffix W file_path)
                            ++ ". Supported: "
                            ++ Py.join ", " SUPPORTED_EXTENSIONS)%string))
         end
    else ([], Raise (FileNotFoundError
                       ("File not found: " ++ file_path)%string)).
Proof.
  unfold process. destruct (path_exists W file_path); [|reflexivity].
  cbn [negb]. rewrite extract_text_cases.
  unfold SUPPORTED_EXTENSIONS, get_supported_extensions.
  destruct (dict_get _ EXTRACTORS) as [ex|] eqn:Hg.
  - replace (Py.mem _ (dict_keys EXTRACTORS)) with true
      by (symmetry; apply dict_get_mem; now exists ex).
    cbn [negb]. unfold bind.
    destruct (run_extractor W ex file_path); reflexivity.
  - apply dict_get_not_mem in Hg. now rewrite Hg.
Qed.

End DispatchFacts.

(** X9. [extract_text] is a single lookup: when the lowercased suffix is a
    key of the registry, the function registered for it is called once, on
    the path given, and its outcome is the outcome; otherwise the
    [ValueError] is raised with no call. The lookup that follows the
    membership test never fails on its own. *)
Theorem extract_text_dispatch (W : World) (file_path : string) :
  extract_text W file_path
  = match dict_get (Py.lower (path_suffix W file_path)) EXTRACTORS with
    | Some ex => ([Extracted ex file_path], run_extractor W ex file_path)
    | None =>
        ([], Raise (ValueError
                      ("Unsupported format: "
                       ++ Py.lower (path_suffix W file_path))%string))
    end.
Proof. apply extract_text_cases. Qed.





(** ** The dataclass methods *)

Section ToDictFacts.

Lemma chunk_to_dict_inj (c1 c2 : Chunk) :
  chunk_to_dict c1 = chunk_to_dict c2 -> c1 = c2.
Proof.
  destruct c1, c2. unfold chunk_to_dict. simpl. intros H.
  inversion H as [[Hi Ht Hk Hc]].
  apply Nat2Z.inj in Hi, Hk, Hc. now subst.
Qed.

Lemma map_chunk_to_dict_inj (cs1 cs2 : list Chunk) :
  map chunk_to_dict cs1 = map chunk_to_dict cs2 -> cs1 = cs2.
Proof.
  revert cs2. induction cs1 as [|c cs IH]; intros [|c' cs'] H;
    try discriminate; [reflexivity|].
  cbn [map] in H. injection H as Hi Ht Hk Hc Hcs.
  apply Nat2Z.inj in Hi, Hk, Hc. rewrite (IH _ Hcs).
  destruct c, c'; simpl in *; now subst.
Qed.

End ToDictFacts.

(** X12. [to_dict] loses nothing: two results with the same dict are the
    same result (source, totals, configuration and every chunk field). *)
Theorem to_dict_injective (r1 r2 : ChunkResult) :
  to_dict r1 = to_dict r2 -> r1 = r2.
Proof.
  destruct r1 as [s1 n1 t1 c1 cs1 [m1 o1 d1]],
           r2 as [s2 n2 t2 c2 cs2 [m2 o2 d2]].
  unfold to_dict, config_to_dict. simpl. intros H.
  inversion H as [[Hs Hn Ht Hc Hm Ho Hd Hcs]].
  apply Nat2Z.inj in Hn, Ht, Hc. apply map_chunk_to_dict_inj in Hcs.
  now subst.
Qed.

Lemma to_dict_injective_witness :
  process_text (test_chunker 2 0) "alpha" "text"
  = process_text (test_chunker 2 0) " alpha " "text".
Proof.
  apply (to_dict_injective _ _). reflexivity.
Defined.

(** X13. The texts that [to_texts] hands over for a result of
    [process_text] are as many as [total_chunks], none is empty, and with
    the overlap taken out their words are the words of the input. *)
Theorem to_texts_of_process_text (self : Chunkenizer) (txt src : string) :
  List.length (to_texts (process_text self txt src))
  = total_chunks (process_text self txt src)
  /\ Forall (fun t => t <> "") (to_texts (process_text self txt src))
  /\ reassemble (overlap_words self)
                (map Py.split (to_texts (process_text self txt src)))
     = Py.split txt.
Proof.
  unfold to_texts, process_text, assemble. simpl.
  split; [apply length_map|]. split.
  - apply Forall_map. eapply Forall_impl; [|apply chunk_text_shape].
    intros c [(ws & Hne & Hw & Ht) _] E.
    pose proof (join_words_truthy ws Hne Hw) as Hj.
    rewrite <- Ht, E in Hj. discriminate.
  - rewrite map_map. exact (proj1 (chunk_text_words self txt)).
Qed.

(** ** The preview text *)

Section PreviewFacts.

Lemma str_take_length (n : nat) (s : string) :
  String.length (str_take n s) = Nat.min n (String.length s).
Proof.
  revert s. induction n as [|n IH]; intros [|c s]; simpl; auto.
Qed.

Lemma str_take_prefix (n : nat) (s : string) :
  exists rest, s = (str_take n s ++ rest)%string.
Proof.
  revert s. induction n as [|n IH]; intros s.
  - exists s. reflexivity.
  - destruct s as [|c s]; [exists ""; reflexivity|].
    destruct (IH s) as [rest E]. exists rest. simpl. now rewrite <- E.
Qed.

Lemma str_length_append (a b : string) :
  String.length (a ++ b)%string = String.length a + String.length b.
Proof. induction a as [|c a IH]; simpl; [reflexivity | now rewrite IH]. Qed.

End PreviewFacts.

(** X14. The preview of a chunk text is the text itself when it has at most
    200 characters; otherwise it is the first 200 characters of the text
    followed by three dots, 203 characters in all. A preview is never
    longer than 203 characters. *)
Theorem preview_text_bounded (t : string) :
  String.length (preview_text t) <= 203
  /\ (String.length t <= 200 -> preview_text t = t)
  /\ (200 < String.length t ->
      String.length (preview_text t) = 203
      /\ exists head rest,
           String.length head = 200
           /\ t = (head ++ rest)%string
           /\ preview_text t = (head ++ "...")%string).
Proof.
  unfold preview_text.
  destruct (200 <? String.length t)%nat eqn:Hlt.
  - apply Nat.ltb_lt in Hlt.
    assert (Hl : String.length (str_take 200 t) = 200)
      by (rewrite str_take_length; lia).
    assert (Hp : String.length (str_take 200 t ++ "...")%string = 203)
      by (rewrite str_length_append, Hl; reflexivity).
    split; [lia|]. split; [lia|]. intros _. split; [exact Hp|].
    destruct (str_take_prefix 200 t) as [rest E].
    exists (str_take 200 t), rest. auto.
  - apply Nat.ltb_ge in Hlt. split; [lia|]. split; [reflexivity | lia].
Qed.

Lemma preview_text_bounded_witness : preview_text five_words = five_words.
Proof.
  apply (proj1 (proj2 (preview_text_bounded five_words))).
  vm_compute. repeat constructor.
Defined.

(** ** The batch command *)

Section BatchFacts.

Variable S : Shell.
Variable chunker : Chunkenizer.
Variable output_dir : option string.

Lemma batch_loop_flat (files : list string) :
  batch_loop S chunker output_dir files
  = (flat_map (fun f => fst (batch_file S chunker output_dir f)) files,
     flat_map (fun f => snd (batch_file S chunker output_dir f)) files).
Proof.
  unfold batch_loop.
  enough (G : forall fs rows emitted,
             fold_left
               (fun (acc : list Row * list Emit) (file_path : string) =>
                  let (rows, emitted) := acc in
                  let (rows', emitted') :=
                    batch_file S chunker output_dir file_path in
                  (rows ++ rows', emitted ++ emitted'))
               fs (rows, emitted)
             = (rows ++ flat_map
                          (fun f => fst (batch_file S chunker output_dir f)) fs,
                emitted ++ flat_map
                             (fun f => snd (batch_file S chunker output_dir f))
                             fs))
    by exact (G files [] []).
  induction fs as [|f fs IH]; intros rows emitted; simpl.
  - now rewrite !app_nil_r.
  - destruct (batch_file S chunker output_dir f) as [r e]. simpl.
    now rewrite IH, !app_assoc.
Qed.

Lemma batch_file_rows_length (f : string) :
  List.length (fst (batch_file S chunker output_dir f))
  = 1 + (if write_failed S chunker output_dir f then 1 else 0).
Proof.
  unfold batch_file, write_failed.
  destruct (snd (process (sh_world S) chunker f)) as [r|e]; [|reflexivity].
  destruct (given output_dir) as [out|]; [|reflexivity].
  destruct (write_json S _ _); reflexivity.
Qed.

Lemma batch_file_no_output (f : string) :
  given output_dir = None ->
  map row_file (fst (batch_file S chunker output_dir f))
  = [path_name (sh_world S) f]
  /\ snd (batch_file S chunker output_dir f) = [].
Proof.
  intros Hg. unfold batch_file. rewrite Hg.
  destruct (snd (process (sh_world S) chunker f)); split; reflexivity.
Qed.

End BatchFacts.

(** X15. The batch loop treats every file on its own: the rows of a file
    are the same wherever it stands in the list and whatever happened to the
    files before it, and the files after a failed one are still processed;
    the summary is the rows of the files, in the order of the files. *)
Theorem batch_isolates_files (S : Shell) (chunker : Chunkenizer)
        (output_dir : option string) (before after : list string)
        (f : string) :
  fst (batch_loop S chunker output_dir (before ++ f :: after))
  = fst (batch_loop S chunker output_dir before)
    ++ fst (batch_file S chunker output_dir f)
    ++ fst (batch_loop S chunker output_dir after).
Proof.
  rewrite !batch_loop_flat. cbn [fst]. now rewrite flat_map_app.
Qed.

(** X16. The summary has one row per file, and one more for each file
    whose result was computed but whose JSON file could not be written
    (such a file is reported twice: a success row, then an error row).
    When no output directory is given there is exactly one row per file,
    in order, under the file's name, and nothing is written. *)
Theorem batch_row_count (S : Shell) (chunker : Chunkenizer)
        (output_dir : option string) (files : list string) :
  List.length (fst (batch_loop S chunker output_dir files))
  = List.length files
    + List.length (filter (write_failed S chunker output_dir) files)
  /\ (given output_dir = None ->
      map row_file (fst (batch_loop S chunker output_dir files))
      = map (path_name (sh_world S)) files
      /\ snd (batch_loop S chunker output_dir files) = []).
Proof.
  rewrite batch_loop_flat. cbn [fst snd]. split.
  - induction files as [|f fs IH]; [reflexivity|].
    simpl. rewrite length_app, batch_file_rows_length, IH.
    destruct (write_failed S chunker output_dir f); simpl; lia.
  - intros Hg. induction files as [|f fs [IH1 IH2]]; [split; reflexivity|].
    destruct (batch_file_no_output S chunker output_dir f Hg) as [H1 H2].
    simpl. rewrite map_app, H1, H2, IH1, IH2. split; reflexivity.
Qed.

Lemma batch_row_count_witness :
  map row_file
      (fst (batch_loop demo_shell (test_chunker 2 0) None
                       ["docs/report.PDF"; "docs/gone.pdf"]))
  = ["report.PDF"; "gone.pdf"]
  /\ map row_status
         (fst (batch_loop demo_shell (test_chunker 2 0) (Some "ro")
                          ["docs/report.PDF"; "docs/gone.pdf"]))
     = ["success"; "error: Permission denied";
        "error: File not found: docs/gone.pdf"].
Proof.
  split; [|reflexivity].
  apply (proj2 (batch_row_count demo_shell (test_chunker 2 0) None
                  ["docs/report.PDF"; "docs/gone.pdf"])).
  reflexivity.
Defined.

Lemma process_ok_totals (W : World) (self : Chunkenizer) (f : string)
      (log : list Event) (r : ChunkResult) :
  process W self f = (log, Ok r) ->
  total_chunks r = List.length (chunks r)
  /\ total_tokens r = Py.sum (map token_count (chunks r)).
Proof.
  rewrite process_cases.
  destruct (path_exists W f); [|discriminate].
  destruct (dict_get _ EXTRACTORS) as [ex|]; [|discriminate].
  destruct (run_extractor W ex f); [|discriminate].
  intros H. inversion H; subst. split; reflexivity.
Qed.

(** X17. Every row of the summary is a success row, which carries the
    number of chunks and the token total of the result [process] returned
    for its file, or an error row, which carries zero chunks, zero tokens
    and as status "error: " followed by at most 50 characters of the
    exception's text. *)
Theorem batch_rows_report (S : Shell) (chunker : Chunkenizer)
        (output_dir : option string) (files : list string) :
  Forall (fun row =>
            (exists f result,
               In f files
               /\ snd (process (sh_world S) chunker f) = Ok result
               /\ row = {| row_file := path_name (sh_world S) f;
                           row_chunks := List.length (chunks result);
                           row_tokens := Py.sum (map token_count
                                                     (chunks result));
                           row_status := "success" |})
            \/ (exists f e,
                  In f files
                  /\ row = {| row_file := path_name (sh_world S) f;
                              row_chunks := 0;
                              row_tokens := 0;
                              row_status :=
                                ("error: " ++ str_take 50 (str_exn S e))%string |}
                  /\ String.length (row_status row) <= 57))
         (fst (batch_loop S chunker output_dir files)).
Proof.
  rewrite batch_loop_flat. cbn [fst].
  apply Forall_forall. intros row Hin.
  apply in_flat_map in Hin as (f & Hf & Hrow).
  assert (Herr : forall e,
             String.length
               (row_status (error_row S f e)) <= 57).
  { intros e. unfold error_row. cbn [row_status].
    rewrite str_length_append, str_take_length.
    cbn [String.length]. lia. }
  unfold batch_file in Hrow.
  destruct (snd (process (sh_world S) chunker f)) as [r|e] eqn:Hp.
  - assert (Hr : success_row S f r
                 = {| row_file := path_name (sh_world S) f;
                      row_chunks := List.length (chunks r);
                      row_tokens := Py.sum (map token_count (chunks r));
                      row_status := "success" |}).
    { destruct (process (sh_world S) chunker f) as [log res] eqn:Hpr.
      simpl in Hp. subst res.
      destruct (process_ok_totals (sh_world S) chunker f log r Hpr)
        as (Hc & Ht).
      unfold success_row. now rewrite Hc, Ht. }
    destruct (given output_dir) as [out|].
    + destruct (write_json S _ _) as [e|]; simpl in Hrow.
      * destruct Hrow as [E | [E | []]]; subst row.
        -- left. exists f, r. auto.
        -- right. exists f, e. auto.
      * destruct Hrow as [E | []]; subst row. left. exists f, r. auto.
    + destruct Hrow as [E | []]; subst row. left. exists f, r. auto.
  - destruct Hrow as [E | []]; subst row. right. exists f, e. auto.
Qed.



(** ** The process command *)

Section CliFacts.

Variable S : Shell.

Lemma filter_json_panels (cs : list Chunk) (tail : list Emit) :
  filter is_json (map preview_panel cs ++ tail) = filter is_json tail.
Proof.
  induction cs as [|c cs IH]; simpl; [reflexivity | exact IH].
Qed.

Lemma filter_panels_panels (cs : list Chunk) (tail : list Emit) :
  filter (fun ev => negb (is_json ev)) (map preview_panel cs ++ tail)
  = map preview_panel cs ++ filter (fun ev => negb (is_json ev)) tail.
Proof.
  induction cs as [|c cs IH]; simpl; [reflexivity | now rewrite IH].
Qed.

End CliFacts.

(** X19. When the process command runs to its end, the file existed, its
    suffix was registered and [Chunkenizer.process] returned a result.
    The result's dict is emitted exactly once when an output file is given
    (written there) or, failing that, when the command is quiet (printed);
    otherwise it is not emitted at all. The preview panels are those of the
    first [preview] chunks, as many as [min preview total_chunks], and none
    when the command is quiet or [preview] is not positive. *)
Theorem cli_process_done (S : Shell) (file_path : string)
        (output : option string) (max_tokens0 overlap preview : Z)
        (quiet : bool) (emitted : list Emit) :
  cli_process S file_path output max_tokens0 overlap preview quiet
  = (emitted, CliDone) ->
  exists chunker result,
    init (sh_encoding_for_model S) max_tokens0 overlap "gpt-4" = Ok chunker
    /\ path_exists (sh_world S) file_path = true
    /\ snd (process (sh_world S) chunker file_path) = Ok result
    /\ filter is_json emitted
       = match given output with
         | Some out => [WriteJson out (to_dict result)]
         | None => if quiet then [PrintJson (to_dict result)] else []
         end
    /\ filter (fun ev => negb (is_json ev)) emitted
       = (if (preview >? 0)%Z && negb quiet
          then map preview_panel (firstn (Z.to_nat preview) (chunks result))
          else [])
    /\ List.length (filter (fun ev => negb (is_json ev)) emitted)
       = (if (preview >? 0)%Z && negb quiet
          then Nat.min (Z.to_nat preview) (total_chunks result)
          else 0).
Proof.
  unfold cli_process.
  destruct (path_exists (sh_world S) file_path) eqn:He; [|discriminate].
  cbn [negb].
  destruct (init _ max_tokens0 overlap "gpt-4") as [chunker|e]; [|discriminate].
  destruct (negb (Py.mem _ get_supported_extensions)); [discriminate|].
  destruct (process (sh_world S) chunker file_path) as [log res] eqn:Hp.
  cbn [snd]. destruct res as [result|e]; [|discriminate].
  destruct (process_ok_totals _ _ _ _ _ Hp) as [Hc _].
  intros H. exists chunker, result.
  split; [reflexivity|]. split; [reflexivity|].
  split; [now rewrite Hp|].
  set (cs := firstn (Z.to_nat preview) (chunks result)) in *.
  assert (Hlen : List.length cs = Nat.min (Z.to_nat preview)
                                          (total_chunks result)).
  { unfold cs. now rewrite length_firstn, Hc. }
  set (shown := (preview >? 0)%Z && negb quiet) in *.
  assert (Hpan : forall tail,
             filter is_json
               ((if shown then map preview_panel cs else []) ++ tail)
             = filter is_json tail
             /\ filter (fun ev => negb (is_json ev))
                  ((if shown then map preview_panel cs else []) ++ tail)
                = (if shown then map preview_panel cs else [])
                  ++ filter (fun ev => negb (is_json ev)) tail).
  { intros tail. destruct shown.
    - split; [apply filter_json_panels | apply filter_panels_panels].
    - split; reflexivity. }
  assert (Hcount : List.length (if shown then map preview_panel cs else [])
                   = if shown
                     then Nat.min (Z.to_nat preview) (total_chunks result)
                     else 0).
  { destruct shown; [now rewrite length_map | reflexivity]. }
  destruct (given output) as [out|].
  - destruct (write_json S out (to_dict result)); [discriminate|].
    inversion H; subst emitted.
    destruct (Hpan [WriteJson out (to_dict result)]) as [H1 H2].
    rewrite H1, H2. simpl. rewrite app_nil_r. auto.
  - destruct quiet.
    + inversion H; subst emitted.
      destruct (Hpan [PrintJson (to_dict result)]) as [H1 H2].
      rewrite H1, H2. simpl. rewrite app_nil_r. auto.
    + inversion H; subst emitted.
      destruct (Hpan []) as [H1 H2]. rewrite app_nil_r in H1, H2.
      rewrite H1, H2. simpl. rewrite app_nil_r. auto.
Qed.

Lemma cli_process_done_witness :
  exists chunker result,
    init test_encoding_for_model 2 0 "gpt-4" = Ok chunker
    /\ path_exists Demo.world "docs/report.PDF" = true
    /\ snd (process Demo.world chunker "docs/report.PDF") = Ok result
    /\ filter is_json
         (fst (cli_process demo_shell "docs/report.PDF" None 2 0 3 false))
       = []
    /\ List.length
         (filter (fun ev => negb (is_json ev))
            (fst (cli_process demo_shell "docs/report.PDF" None 2 0 3 false)))
       = 3.
Proof.
  destruct (cli_process_done demo_shell "docs/report.PDF" None 2 0 3 false
              (fst (cli_process demo_shell "docs/report.PDF" None 2 0 3 false))
              eq_refl)
    as (ck & r & Hi & He & Hp & Hj & _ & Hl).
  exists ck, r.
  split; [exact Hi|]. split; [exact He|]. split; [exact Hp|].
  split; reflexivity.
Defined.



(** ** The extraction functions: the words of the extracted text *)

Section ExtractionFacts.

Lemma split_of_word (w : string) : is_word w -> Py.split w = [w].
Proof.
  intros [Ht Hn]. unfold Py.split.
  rewrite <- (append_empty_r w) at 1.
  rewrite (split_from_word w "" "" Hn). simpl. now rewrite Ht.
Qed.

Lemma split_cons_space (c : ascii) (s : string) :
  Py.isspace c = true -> Py.split (String c s) = Py.split s.
Proof. intros H. unfold Py.split. simpl. now rewrite H. Qed.

Lemma no_space_uint (d : Decimal.uint) :
  no_space (NilEmpty.string_of_uint d) = true.
Proof. induction d; simpl; auto. Qed.

Lemma str_of_nat_no_space (n : nat) : no_space (str_of_nat n) = true.
Proof.
  unfold str_of_nat, NilZero.string_of_uint.
  destruct (Nat.to_uint n) eqn:E; try reflexivity;
    rewrite <- E; apply no_space_uint.
Qed.

(** A number closed by a bracket is one word. *)
Lemma numbered_word (n : nat) : is_word (str_of_nat n ++ "]")%string.
Proof.
  split.
  - destruct (str_of_nat n); reflexivity.
  - now rewrite no_space_append, str_of_nat_no_space.
Qed.

Lemma split_join_sep_from (c : ascii) (sep : string) (rest : list string) :
  Py.isspace c = true ->
  forall pre p,
    Py.split (pre ++ Py.join (String c sep) (p :: rest))%string
    = Py.split (pre ++ p)%string
      ++ flat_map (fun q => Py.split (sep ++ q)%string) rest.
Proof.
  intros Hc. induction rest as [|q rest IH]; intros pre p.
  - simpl. now rewrite app_nil_r.
  - change (Py.join (String c sep) (p :: q :: rest))
      with (p ++ String c (sep ++ Py.join (String c sep) (q :: rest)))%string.
    rewrite <- append_assoc, (split_sep (pre ++ p) _ c Hc), IH.
    reflexivity.
Qed.

(** The words of a join whose separator starts with whitespace. *)
Lemma split_join_sep (c : ascii) (sep : string) (parts : list string) :
  Py.isspace c = true ->
  Py.split (Py.join (String c sep) parts)
  = match parts with
    | [] => []
    | p :: rest =>
        Py.split p ++ flat_map (fun q => Py.split (sep ++ q)%string) rest
    end.
Proof.
  intros Hc. destruct parts as [|p rest]; [reflexivity|].
  exact (split_join_sep_from c sep rest Hc "" p).
Qed.

Lemma split_join_nl (parts : list string) :
  Py.split (Py.join nl parts) = flat_map Py.split parts.
Proof.
  unfold nl. rewrite split_join_sep by reflexivity.
  destruct parts as [|p rest]; reflexivity.
Qed.

Lemma split_join_blank_line (parts : list string) :
  Py.split (Py.join (nl ++ nl) parts) = flat_map Py.split parts.
Proof.
  change (nl ++ nl)%string with (String "010"%char nl).
  rewrite split_join_sep by reflexivity.
  destruct parts as [|p rest]; reflexivity.
Qed.

Lemma flat_map_map {A B C : Type} (f : A -> B) (g : B -> list C)
      (xs : list A) :
  flat_map g (map f xs) = flat_map (fun x => g (f x)) xs.
Proof. induction xs as [|x xs IH]; simpl; [reflexivity | now rewrite IH]. Qed.

Lemma page_part_words (p : nat * string) :
  Py.split (Pdf.page_part p) = page_words p.
Proof.
  unfold Pdf.page_part, page_words.
  change ("[Page " ++ str_of_nat (fst p) ++ "]" ++ nl ++ snd p)%string
    with ("[Page" ++ String " "%char
                   (str_of_nat (fst p) ++ "]" ++ nl ++ snd p))%string.
  rewrite split_sep by reflexivity.
  change (Py.split "[Page") with ["[Page"]. cbn [app]. f_equal.
  rewrite <- append_assoc. unfold nl.
  change (((str_of_nat (fst p) ++ "]") ++ String "010"%char "" ++ snd p)%string)
    with (((str_of_nat (fst p) ++ "]") ++ String "010"%char (snd p))%string).
  rewrite split_sep by reflexivity.
  now rewrite (split_of_word _ (numbered_word (fst p))).
Qed.

Lemma pdf_render_words (pages : list string) :
  Py.split (Pdf.render pages)
  = flat_map page_words
             (filter (fun p => nonblank (snd p)) (enumerate1 pages)).
Proof.
  unfold Pdf.render. rewrite split_join_blank_line, flat_map_map.
  apply flat_map_ext. intros p. apply page_part_words.
Qed.

End ExtractionFacts.

(** X21. The words of the text extracted from a PDF are, page after page
    in document order, the marker "[Page n]" with the page's own number and
    then the words of the page; pages without visible text are left out
    and do not shift the numbers of the pages after them. *)
Theorem pdf_text_words (pages : list string) :
  Py.split (Pdf.render pages)
  = flat_map page_words
             (filter (fun p => nonblank (snd p)) (enumerate1 pages)).
Proof. apply pdf_render_words. Qed.

Section StripFacts.

Lemma split_from_all_space (s acc : string) :
  all_space s = true ->
  Py.split_from acc s = if Py.truthy acc then [acc] else [].
Proof.
  induction s as [|c s IH]; simpl; [reflexivity|].
  intros H. apply andb_true_iff in H as [Hc Hs]. rewrite Hc.
  pose proof (split_all_space s Hs) as E. unfold Py.split in E.
  rewrite E. reflexivity.
Qed.

Lemma split_from_rstrip (s acc : string) :
  Py.split_from acc (Py.rstrip s) = Py.split_from acc s.
Proof.
  revert acc. induction s as [|c s IH]; intros acc; [reflexivity|].
  simpl. destruct (Py.rstrip s) as [|r0 r] eqn:Hr.
  - pose proof (rstrip_empty s Hr) as Hs.
    destruct (Py.isspace c) eqn:Hc; simpl; rewrite ?Hc.
    + pose proof (split_all_space s Hs) as E. unfold Py.split in E.
      rewrite E. reflexivity.
    + now rewrite (split_from_all_space s _ Hs), truthy_snoc.
  - change (Py.split_from acc (String c (String r0 r))
            = Py.split_from acc (String c s)).
    simpl. rewrite <- !IH. simpl. reflexivity.
Qed.

Lemma split_lstrip (s : string) : Py.split (Py.lstrip s) = Py.split s.
Proof.
  unfold Py.split. induction s as [|c s IH]; [reflexivity|].
  simpl. destruct (Py.isspace c) eqn:Hc; [exact IH|].
  simpl. now rewrite Hc.
Qed.

(** Stripping a text changes none of its words. *)
Lemma split_strip (s : string) : Py.split (Py.strip s) = Py.split s.
Proof.
  unfold Py.strip, Py.split. rewrite split_from_rstrip. apply split_lstrip.
Qed.

Lemma nonblank_false_split (s : string) :
  nonblank s = false -> Py.split s = [].
Proof. apply strip_falsy_split. Qed.

Lemma flat_map_filter_nil {A B : Type} (f : A -> bool) (g : A -> list B)
      (xs : list A) :
  (forall x, f x = false -> g x = []) ->
  flat_map g (filter f xs) = flat_map g xs.
Proof.
  intros H. induction xs as [|x xs IH]; [reflexivity|].
  simpl. destruct (f x) eqn:E; simpl; rewrite IH; [reflexivity|].
  now rewrite (H x E).
Qed.

Lemma flat_map_flat_map {A B C : Type} (f : A -> list B) (g : B -> list C)
      (xs : list A) :
  flat_map g (flat_map f xs) = flat_map (fun x => flat_map g (f x)) xs.
Proof.
  induction xs as [|x xs IH]; [reflexivity|].
  simpl. now rewrite flat_map_app, IH.
Qed.

Lemma cells_row_words (row : list string) :
  Py.split (Py.join " | " (map Py.strip row)) = cells_words row.
Proof.
  change " | " with (String " "%char "| ").
  rewrite split_join_sep by reflexivity.
  destruct row as [|c rest]; [reflexivity|].
  cbn [map cells_words]. rewrite split_strip. f_equal.
  induction rest as [|c' rest IH]; [reflexivity|].
  cbn [map flat_map]. rewrite IH. f_equal.
  change (Py.split ("| " ++ Py.strip c')) with ("|" :: Py.split (Py.strip c')).
  now rewrite split_strip.
Qed.

Lemma table_rows_words (t : Table) :
  Py.split (Py.join nl (table_rows t)) = flat_map cells_words t.
Proof.
  unfold table_rows. rewrite split_join_nl, flat_map_map.
  apply flat_map_ext. intros row. apply cells_row_words.
Qed.

Lemma split_append_nl (s : string) : Py.split (s ++ nl) = Py.split s.
Proof.
  unfold nl. rewrite split_sep by reflexivity.
  change (Py.split "") with (@nil string). apply app_nil_r.
Qed.

Lemma docx_table_part_words (p : nat * Table) :
  Py.split (Docx.table_part p) = docx_table_words p.
Proof.
  unfold Docx.table_part, docx_table_words.
  change (nl ++ "[Table " ++ str_of_nat (fst p) ++ "]" ++ nl
             ++ Py.join nl (table_rows (snd p)) ++ nl)%string
    with (String "010"%char
            ("[Table" ++ String " "%char
               (str_of_nat (fst p) ++ "]" ++ nl
                  ++ Py.join nl (table_rows (snd p)) ++ nl)))%string.
  rewrite split_cons_space, split_sep by reflexivity.
  change (Py.split "[Table") with ["[Table"]. cbn [app]. f_equal.
  rewrite <- append_assoc.
  change (((str_of_nat (fst p) ++ "]")
             ++ nl ++ Py.join nl (table_rows (snd p)) ++ nl)%string)
    with (((str_of_nat (fst p) ++ "]")
             ++ String "010"%char
                  (Py.join nl (table_rows (snd p)) ++ nl))%string).
  rewrite split_sep by reflexivity.
  rewrite (split_of_word _ (numbered_word (fst p))).
  cbn [app]. f_equal. rewrite split_append_nl. apply table_rows_words.
Qed.

Lemma nonempty_table_rows (t : Table) :
  Py.nonempty (table_rows t) = Py.nonempty t.
Proof. destruct t; reflexivity. Qed.

Lemma pptx_shape_words (sh : Shape) :
  flat_map Py.split (Pptx.shape_parts sh) = shape_words sh.
Proof.
  unfold Pptx.shape_parts, shape_words. rewrite flat_map_app. f_equal.
  - destruct (shape_text sh) as [t|]; [|reflexivity].
    destruct (nonblank t) eqn:Hb; simpl.
    + apply app_nil_r.
    + symmetry. now apply nonblank_false_split.
  - destruct (shape_table sh) as [[|r rows]|]; try reflexivity.
    cbn [table_rows map Py.nonempty flat_map]. rewrite app_nil_r.
    change (map (fun row => Py.join " | " (map Py.strip row)) rows)
      with (table_rows rows).
    change (Py.join " | " (map Py.strip r) :: table_rows rows)
      with (table_rows (r :: rows)).
    change (nl ++ "[Table]" ++ nl ++ Py.join nl (table_rows (r :: rows)))%string
      with (String "010"%char
              ("[Table]" ++ String "010"%char
                 (Py.join nl (table_rows (r :: rows)))))%string.
    rewrite split_cons_space, split_sep by reflexivity.
    now rewrite table_rows_words.
Qed.

Lemma pptx_notes_words (sl : Slide) :
  flat_map Py.split (Pptx.notes_parts sl) = notes_words sl.
Proof.
  unfold Pptx.notes_parts, notes_words.
  destruct (notes sl) as [t|]; [|reflexivity].
  destruct (nonblank t); [|reflexivity].
  cbn [flat_map]. rewrite app_nil_r.
  change (nl ++ "[Notes]" ++ nl ++ t)%string
    with (String "010"%char ("[Notes]" ++ String "010"%char t))%string.
  now rewrite split_cons_space, split_sep by reflexivity.
Qed.

Lemma pptx_slide_part_words (p : nat * Slide) :
  Py.split (Pptx.slide_part p) = slide_words p.
Proof.
  unfold Pptx.slide_part, slide_words.
  rewrite split_join_nl. cbn [app flat_map].
  rewrite flat_map_app, flat_map_flat_map, pptx_notes_words.
  rewrite (flat_map_ext _ _ pptx_shape_words).
  change ("[Slide " ++ str_of_nat (fst p) ++ "]")%string
    with ("[Slide" ++ String " "%char (str_of_nat (fst p) ++ "]"))%string.
  rewrite split_sep by reflexivity.
  now rewrite (split_of_word _ (numbered_word (fst p))).
Qed.


End StripFacts.

(** X22. The words of the text extracted from a Word document are the
    words of its paragraphs in order (paragraphs without visible text add
    nothing), then for each table that has rows the marker "[Table n]" with
    the table's own number and the words of its cells, row by row, a bar
    between two cells of a row. *)
Theorem docx_text_words (doc : DocxDocument) :
  Py.split (Docx.render doc)
  = flat_map Py.split (paragraphs doc)
    ++ flat_map docx_table_words
                (filter (fun p => Py.nonempty (snd p))
                        (enumerate1 (tables doc))).
Proof.
  unfold Docx.render.
  rewrite split_join_blank_line, flat_map_app. f_equal.
  - apply flat_map_filter_nil. exact nonblank_false_split.
  - rewrite flat_map_map.
    rewrite (filter_ext (fun p : nat * Table => Py.nonempty (table_rows (snd p)))
                        (fun p => Py.nonempty (snd p)))
      by (intros p; apply nonempty_table_rows).
    apply flat_map_ext. intros p. apply docx_table_part_words.
Qed.

(** X23. The words of the text extracted from a presentation are, slide
    after slide, the marker "[Slide n]", the words of the slide's shapes
    (text, then "[Table]" and the cells of a table that has rows) and, when
    the notes have visible text, "[Notes]" and their words; a line of three
    dashes stands between two slides. Every slide leaves its marker, so the
    text has no word only when there is no slide. *)
Theorem pptx_text_words (slides : list Slide) :
  Py.split (Pptx.render slides)
  = match enumerate1 slides with
    | [] => []
    | p :: rest =>
        slide_words p ++ flat_map (fun q => "---" :: slide_words q) rest
    end
  /\ (Py.split (Pptx.render slides) = [] <-> slides = []).
Proof.
  assert (E : Py.split (Pptx.render slides)
              = match enumerate1 slides with
                | [] => []
                | p :: rest =>
                    slide_words p
                    ++ flat_map (fun q => "---" :: slide_words q) rest
                end).
  { unfold Pptx.render, Pptx.separator.
    change (nl ++ nl ++ "---" ++ nl ++ nl)%string
      with (String "010"%char (nl ++ "---" ++ nl ++ nl))%string.
    rewrite split_join_sep by reflexivity.
    destruct (enumerate1 slides) as [|p rest]; [reflexivity|].
    cbn [map]. rewrite pptx_slide_part_words. f_equal.
    rewrite flat_map_map. apply flat_map_ext. intros q.
    change (Py.split ((nl ++ "---" ++ nl ++ nl) ++ Pptx.slide_part q))
      with ("---" :: Py.split (Pptx.slide_part q)).
    now rewrite pptx_slide_part_words. }
  split; [exact E|]. rewrite E. unfold enumerate1.
  destruct slides as [|sl slides]; [split; reflexivity|].
  simpl. split; discriminate.
Qed.

Lemma pptx_text_words_witness : Py.split (Pptx.render []) = [].
Proof.
  apply (proj2 (proj2 (pptx_text_words []))). reflexivity.
Defined.

(** ** A PDF through [process] *)



(** ** The batch command as a whole *)

Section BatchOutcomeFacts.

Variable S : Shell.
Variable chunker : Chunkenizer.
Variable output_dir : option string.



End BatchOutcomeFacts.


